(** * telephonepi: the conversation-turn driver of [assistant.py] and
      [textinput.py], embedded as state-passing functions.

    Layout of the development:
    - [Py]        truthiness of the Python values the drivers test;
    - [Grpc]      status codes and the exceptions a turn can raise;
    - [Proto]     the messages of embedded_assistant.proto that the
                  drivers build and read;
    - [AudioHelpers]  the duplex audio stream the voice driver drives;
    - [Tenacity]  the retrying call that decorates [Assistant.assist];
    - [AssistantPy]   [assistant.py];
    - [TextInput]     [textinput.py];
    - the properties of both drivers. *)

From Stdlib Require Import ZArith List String Bool Lia Arith.
From Stdlib Require Import Strings.Byte.
Import ListNotations.

Set Implicit Arguments.

(* ===================================================================== *)
(** ** Python values *)

Module Py.

Definition bytes := list Byte.byte.

(** [bool(b)] for a bytes object: a non-empty value is truthy. *)
Definition bool_bytes (b : bytes) : bool :=
  match b with
  | [] => false
  | _ :: _ => true
  end.

(** [bool(s)] for a str. *)
Definition bool_str (s : string) : bool :=
  match s with
  | EmptyString => false
  | String _ _ => true
  end.

(** [bool(l)] for a list or a repeated field. *)
Definition bool_list {A : Type} (l : list A) : bool :=
  match l with
  | [] => false
  | _ :: _ => true
  end.

End Py.

(* ===================================================================== *)
(** ** gRPC status codes and exceptions *)

Module Grpc.

(** [grpc.StatusCode]. *)
Inductive StatusCode : Type :=
| OK | CANCELLED | UNKNOWN | INVALID_ARGUMENT | DEADLINE_EXCEEDED
| NOT_FOUND | ALREADY_EXISTS | PERMISSION_DENIED | RESOURCE_EXHAUSTED
| FAILED_PRECONDITION | ABORTED | OUT_OF_RANGE | UNIMPLEMENTED
| INTERNAL | UNAVAILABLE | DATA_LOSS | UNAUTHENTICATED.

Definition StatusCode_eqb (a b : StatusCode) : bool :=
  match a, b with
  | OK, OK | CANCELLED, CANCELLED | UNKNOWN, UNKNOWN
  | INVALID_ARGUMENT, INVALID_ARGUMENT
  | DEADLINE_EXCEEDED, DEADLINE_EXCEEDED | NOT_FOUND, NOT_FOUND
  | ALREADY_EXISTS, ALREADY_EXISTS | PERMISSION_DENIED, PERMISSION_DENIED
  | RESOURCE_EXHAUSTED, RESOURCE_EXHAUSTED
  | FAILED_PRECONDITION, FAILED_PRECONDITION | ABORTED, ABORTED
  | OUT_OF_RANGE, OUT_OF_RANGE | UNIMPLEMENTED, UNIMPLEMENTED
  | INTERNAL, INTERNAL | UNAVAILABLE, UNAVAILABLE | DATA_LOSS, DATA_LOSS
  | UNAUTHENTICATED, UNAUTHENTICATED => true
  | _, _ => false
  end.

(** The exceptions a turn can raise: a [grpc.RpcError] with its status
    code and details, or an exception of any other class (an audio
    device error, an [OSError], ...), kept by class name and message. *)
Inductive PyException : Type :=
| RpcError (code : StatusCode) (details : string)
| OtherException (cls : string) (msg : string).

End Grpc.

(* ===================================================================== *)
(** ** Messages of embedded_assistant.proto (v1alpha2) *)

Module Proto.

Import Py.

(** Enum values, as the generated module exports them.  Enum fields are
    open in proto3, so a field holds any integer. *)
Definition EVENT_TYPE_UNSPECIFIED : Z := 0.
Definition END_OF_UTTERANCE : Z := 1.
Definition MICROPHONE_MODE_UNSPECIFIED : Z := 0.
Definition CLOSE_MICROPHONE : Z := 1.
Definition DIALOG_FOLLOW_ON : Z := 2.
Definition SCREEN_MODE_UNSPECIFIED : Z := 0.
Definition PLAYING : Z := 3.

Module AudioInConfig.
Record t : Type := Build
  { encoding : string; sample_rate_hertz : Z }.
End AudioInConfig.

Module AudioOutConfig.
Record t : Type := Build
  { encoding : string; sample_rate_hertz : Z; volume_percentage : Z }.
End AudioOutConfig.

Module DialogStateIn.
(** [conversation_state] is what the driver passes: [None] before any
    state was received, the stored bytes afterwards. *)
Record t : Type := Build
  { language_code : string;
    conversation_state : option bytes;
    is_new_conversation : bool }.
End DialogStateIn.

Module DeviceConfig.
Record t : Type := Build
  { device_id : string; device_model_id : string }.
End DeviceConfig.

(** The [type] oneof of AssistConfig. *)
Inductive ConfigType : Type :=
| audio_in_config (c : AudioInConfig.t)
| text_query (q : string).

Module AssistConfig.
Record t : Type := Build
  { type : ConfigType;
    audio_out_config : AudioOutConfig.t;
    dialog_state_in : DialogStateIn.t;
    device_config : DeviceConfig.t;
    screen_mode : Z }.

Definition set_screen_mode (m : Z) (c : t) : t :=
  {| type := type c;
     audio_out_config := audio_out_config c;
     dialog_state_in := dialog_state_in c;
     device_config := device_config c;
     screen_mode := m |}.
End AssistConfig.

(** AssistRequest is a oneof: a config or a chunk of audio. *)
Inductive AssistRequest : Type :=
| config (c : AssistConfig.t)
| audio_in (data : bytes).

Module AudioOut.
Record t : Type := Build { audio_data : bytes }.
End AudioOut.

Module ScreenOut.
Record t : Type := Build { format : Z; data : bytes }.
End ScreenOut.

Module DialogStateOut.
Record t : Type := Build
  { supplemental_display_text : string;
    conversation_state : bytes;
    microphone_mode : Z;
    volume_percentage : Z }.
End DialogStateOut.

Module AssistResponse.
Record t : Type := Build
  { event_type : Z;
    audio_out : AudioOut.t;
    screen_out : ScreenOut.t;
    speech_results : list string;
    dialog_state_out : DialogStateOut.t }.
End AssistResponse.

(** The message with every field at its proto3 default. *)
Definition empty_response : AssistResponse.t :=
  {| AssistResponse.event_type := EVENT_TYPE_UNSPECIFIED;
     AssistResponse.audio_out := {| AudioOut.audio_data := [] |};
     AssistResponse.screen_out :=
       {| ScreenOut.format := 0; ScreenOut.data := [] |};
     AssistResponse.speech_results := [];
     AssistResponse.dialog_state_out :=
       {| DialogStateOut.supplemental_display_text := EmptyString;
          DialogStateOut.conversation_state := [];
          DialogStateOut.microphone_mode := MICROPHONE_MODE_UNSPECIFIED;
          DialogStateOut.volume_percentage := 0 |} |}.

(** The configs among the requests of one outbound stream. *)
Fixpoint configs_of (reqs : list AssistRequest) : list AssistConfig.t :=
  match reqs with
  | [] => []
  | config c :: rest => c :: configs_of rest
  | audio_in _ :: rest => configs_of rest
  end.

Definition is_config (r : AssistRequest) : bool :=
  match r with
  | config _ => true
  | audio_in _ => false
  end.

Definition is_new (c : AssistConfig.t) : bool :=
  DialogStateIn.is_new_conversation (AssistConfig.dialog_state_in c).

End Proto.


(** The gRPC client stub [EmbeddedAssistantStub].  Its only observable
    effect on the outside is what it sends: [outbound] keeps, oldest
    first, the request sequence that each [Assist] call consumed. *)
Module EmbeddedAssistantStub.

Record t : Type := Build
  { outbound : list (list Proto.AssistRequest) }.

Definition create : t := {| outbound := [] |}.

Definition send (reqs : list Proto.AssistRequest) (stub : t) : t :=
  {| outbound := outbound stub ++ [reqs] |}.

(** Every config the stub has sent, in the order sent. *)
Definition sent_configs (stub : t) : list Proto.AssistConfig.t :=
  flat_map Proto.configs_of (outbound stub).

(** The new-conversation flag of every config sent, in the order sent. *)
Definition new_conversation_flags (stub : t) : list bool :=
  map Proto.is_new (sent_configs stub).

(** The flag held by a driver and the flags it has sent agree: while the
    flag is set nothing was sent; once it is cleared, the first config sent
    carried true and every later one false. *)
Definition once (held : bool) (sent : list bool) : Prop :=
  (held = true /\ sent = []) \/
  (held = false /\ exists n, sent = true :: repeat false n).

End EmbeddedAssistantStub.

(* ===================================================================== *)
(** ** The audio transport *)

Module AudioHelpers.

Import Py.

(** The driver's calls on the stream, recorded in the order made. *)
Inductive Call : Type :=
| StartRecording
| StopRecording
| StartPlayback
| StopPlayback
| Write (buf : bytes).

(** Modelled from the spec: [audio_helpers.ConversationStream] is imported
    by [assistant.py] but is not among the sources.  Section 6 of the
    spec gives what the Audio Transport exposes: start and stop of
    recording and of playback, a [playing] query, a mutable volume
    percentage, a fixed sample rate, and a writable sink.  The record
    keeps those, plus the trace of the calls received. *)
Record ConversationStream : Type := Build
  { recording : bool;
    playing : bool;
    volume_percentage : Z;
    sample_rate : Z;
    calls : list Call }.

Definition start_recording (s : ConversationStream) : ConversationStream :=
  {| recording := true;
     playing := playing s;
     volume_percentage := volume_percentage s;
     sample_rate := sample_rate s;
     calls := calls s ++ [StartRecording] |}.

Definition stop_recording (s : ConversationStream) : ConversationStream :=
  {| recording := false;
     playing := playing s;
     volume_percentage := volume_percentage s;
     sample_rate := sample_rate s;
     calls := calls s ++ [StopRecording] |}.

Definition start_playback (s : ConversationStream) : ConversationStream :=
  {| recording := recording s;
     playing := true;
     volume_percentage := volume_percentage s;
     sample_rate := sample_rate s;
     calls := calls s ++ [StartPlayback] |}.

Definition stop_playback (s : ConversationStream) : ConversationStream :=
  {| recording := recording s;
     playing := false;
     volume_percentage := volume_percentage s;
     sample_rate := sample_rate s;
     calls := calls s ++ [StopPlayback] |}.

Definition write (buf : bytes) (s : ConversationStream) : ConversationStream :=
  {| recording := recording s;
     playing := playing s;
     volume_percentage := volume_percentage s;
     sample_rate := sample_rate s;
     calls := calls s ++ [Write buf] |}.

(** The assignment [stream.volume_percentage = v]. *)
Definition set_volume_percentage (v : Z) (s : ConversationStream)
  : ConversationStream :=
  {| recording := recording s;
     playing := playing s;
     volume_percentage := v;
     sample_rate := sample_rate s;
     calls := calls s |}.

Definition is_playback_call (c : Call) : bool :=
  match c with
  | StartPlayback | StopPlayback => true
  | _ => false
  end.

Definition is_start_playback (c : Call) : bool :=
  match c with
  | StartPlayback => true
  | _ => false
  end.

Definition is_stop_playback (c : Call) : bool :=
  match c with
  | StopPlayback => true
  | _ => false
  end.

End AudioHelpers.

(* ===================================================================== *)
(** ** The retrying call of tenacity

    tenacity is a third-party package.  The loop below follows
    [Retrying.__call__] and [Retrying.iter] for the options that
    [assistant.py] passes: a retry predicate on the exception raised, a stop
    after a number of attempts, [reraise=True], and no wait. *)

Module Tenacity.

Import Grpc.

(** What one attempt did: it returned a value or raised. *)
Inductive Outcome (Res : Type) : Type :=
| Returned (r : Res)
| Raised (e : PyException).

Arguments Returned {Res} r.
Arguments Raised {Res} e.

Section Retrying.

Variables St Res : Type.

(** [retry_if_exception(predicate)]. *)
Variable predicate : PyException -> bool.
(** [stop_after_attempt(max_attempt_number)]. *)
Variable max_attempt_number : nat.
(** The decorated function; the environment may answer each attempt
    differently, so it is indexed by the attempt number. *)
Variable fn : nat -> St -> Outcome Res * St.

(** [retry_if_exception.__call__]: an attempt that returned is never
    retried; one that raised is retried when the predicate accepts the
    exception. *)
Definition retry_if_exception (o : Outcome Res) : bool :=
  match o with
  | Returned _ => false
  | Raised e => predicate e
  end.

(** [stop_after_attempt.__call__]. *)
Definition stop_after_attempt (attempt_number : nat) : bool :=
  max_attempt_number <=? attempt_number.

(** [RetryError.reraise], reached with [reraise=True] once the stop
    condition holds: the exception of the last attempt is raised again
    as it is; a last attempt that returned gives a [RetryError]. *)
Definition reraise (o : Outcome Res) : Outcome Res :=
  match o with
  | Raised e => Raised e
  | Returned _ => Raised (OtherException "RetryError" EmptyString)
  end.

(** The loop of [Retrying.__call__], one iteration per unit of fuel.  It
    gives the final outcome, the final state, and the outcome of every
    attempt made, oldest first.  No wait is configured, so the next
    attempt follows at once. *)
Fixpoint retry_loop (fuel attempt_number : nat) (st : St)
  : option (Outcome Res * St * list (Outcome Res)) :=
  match fuel with
  | O => None
  | S fuel' =>
      let (o, st') := fn attempt_number st in
      if negb (retry_if_exception o) then Some (o, st', [o])
      else if stop_after_attempt attempt_number
           then Some (reraise o, st', [o])
      else match retry_loop fuel' (S attempt_number) st' with
           | Some (final, st'', attempts) => Some (final, st'', o :: attempts)
           | None => None
           end
  end.

(** Attempts [n], [n+1], ..., [n+k-1] run one after the other, each on the
    state the previous one left: the final state and the outcomes. *)
Fixpoint run_from (k n : nat) (st : St) : St * list (Outcome Res) :=
  match k with
  | O => (st, [])
  | S k' =>
      let (o, st') := fn n st in
      let (st'', os) := run_from k' (S n) st' in
      (st'', o :: os)
  end.

(** The decorated function: attempts are numbered from 1. *)
Definition call (st : St) : option (Outcome Res * St * list (Outcome Res)) :=
  retry_loop (S max_attempt_number) 1 st.

End Retrying.

End Tenacity.

(* ===================================================================== *)
(** ** assistant.py *)

Module AssistantPy.

Import Py Grpc Proto AudioHelpers Tenacity.
Local Open Scope Z_scope.

Definition DEFAULT_GRPC_DEADLINE : Z := 60 * 3 + 5.
Definition DEVICE_MODEL_ID : string := "telephonepi-telephonepi-01z0jk".
Definition LANGUAGE_CODE : string := "en-US".

(** The fields of an [Assistant] instance. *)
Record Assistant : Type := Build
  { language_code : string;
    device_model_id : string;
    display : bool;
    device_id : string;
    conversation_stream : ConversationStream;
    conversation_state : option bytes;
    is_new_conversation : bool;
    assistant : EmbeddedAssistantStub.t;
    deadline : Z }.

Definition set_conversation_stream (s : ConversationStream) (self : Assistant)
  : Assistant :=
  {| language_code := language_code self;
     device_model_id := device_model_id self;
     display := display self;
     device_id := device_id self;
     conversation_stream := s;
     conversation_state := conversation_state self;
     is_new_conversation := is_new_conversation self;
     assistant := assistant self;
     deadline := deadline self |}.

Definition set_conversation_state (b : option bytes) (self : Assistant)
  : Assistant :=
  {| language_code := language_code self;
     device_model_id := device_model_id self;
     display := display self;
     device_id := device_id self;
     conversation_stream := conversation_stream self;
     conversation_state := b;
     is_new_conversation := is_new_conversation self;
     assistant := assistant self;
     deadline := deadline self |}.

Definition set_is_new_conversation (b : bool) (self : Assistant) : Assistant :=
  {| language_code := language_code self;
     device_model_id := device_model_id self;
     display := display self;
     device_id := device_id self;
     conversation_stream := conversation_stream self;
     conversation_state := conversation_state self;
     is_new_conversation := b;
     assistant := assistant self;
     deadline := deadline self |}.

Definition set_assistant (stub : EmbeddedAssistantStub.t) (self : Assistant)
  : Assistant :=
  {| language_code := language_code self;
     device_model_id := device_model_id self;
     display := display self;
     device_id := device_id self;
     conversation_stream := conversation_stream self;
     conversation_state := conversation_state self;
     is_new_conversation := is_new_conversation self;
     assistant := stub;
     deadline := deadline self |}.

(** A method call on [self.conversation_stream]. *)
Definition on_stream (f : ConversationStream -> ConversationStream)
  (self : Assistant) : Assistant :=
  set_conversation_stream (f (conversation_stream self)) self.

(** [Assistant.__init__]; the channel becomes a fresh stub. *)
Definition __init__ (device_id : string)
  (conversation_stream : ConversationStream) : Assistant :=
  {| language_code := LANGUAGE_CODE;
     device_model_id := DEVICE_MODEL_ID;
     display := false;
     device_id := device_id;
     conversation_stream := conversation_stream;
     conversation_state := None;
     is_new_conversation := true;
     assistant := EmbeddedAssistantStub.create;
     deadline := DEFAULT_GRPC_DEADLINE |}.

(** [is_grpc_error_unavailable]. *)
Definition is_grpc_error_unavailable (e : PyException) : bool :=
  match e with
  | RpcError code _ => StatusCode_eqb code UNAVAILABLE
  | OtherException _ _ => false
  end.

(** The config that [gen_assist_requests] builds from the fields of
    [self] as they are when the generator first runs. *)
Definition build_config (self : Assistant) : AssistConfig.t :=
  let config :=
    {| AssistConfig.type :=
         audio_in_config
           {| AudioInConfig.encoding := "LINEAR16";
              AudioInConfig.sample_rate_hertz :=
                sample_rate (conversation_stream self) |};
       AssistConfig.audio_out_config :=
         {| AudioOutConfig.encoding := "LINEAR16";
            AudioOutConfig.sample_rate_hertz :=
              sample_rate (conversation_stream self);
            AudioOutConfig.volume_percentage :=
              volume_percentage (conversation_stream self) |};
       AssistConfig.dialog_state_in :=
         {| DialogStateIn.language_code := language_code self;
            DialogStateIn.conversation_state := conversation_state self;
            DialogStateIn.is_new_conversation := is_new_conversation self |};
       AssistConfig.device_config :=
         {| DeviceConfig.device_id := device_id self;
            DeviceConfig.device_model_id := device_model_id self |};
       AssistConfig.screen_mode := SCREEN_MODE_UNSPECIFIED |} in
  if display self then AssistConfig.set_screen_mode PLAYING config
  else config.

(** [Assistant.gen_assist_requests], run to exhaustion: [captured] is the
    sequence of chunks that iterating [self.conversation_stream] yields
    during the turn.  The config is built, the flag is cleared, the config
    is yielded, then one audio request per chunk. *)
Definition gen_assist_requests (self : Assistant) (captured : list bytes)
  : Assistant * list AssistRequest :=
  let config := build_config self in
  let self := set_is_new_conversation false self in
  (self, Proto.config config :: map audio_in captured).

(** What the outside does during one [Assist] call: the audio the stream
    captures, how many requests the transport takes from the request
    generator, the responses it delivers, and the exception that ends the
    inbound iteration, if any ([None]: the remote half-closes). *)
Record Rpc : Type := BuildRpc
  { captured : list bytes;
    pulled : nat;
    responses : list AssistResponse.t;
    error : option PyException }.

(** [self.assistant.Assist(iter_log_assist_requests(), self.deadline)], the
    outbound side.  A generator runs nothing before its first [next]: with
    no request taken, [self] is untouched; otherwise the generator has
    built its config and the transport has taken a prefix of what it
    yields. *)
Definition Assist_outbound (rpc : Rpc) (self : Assistant) : Assistant :=
  match pulled rpc with
  | O => set_assistant (EmbeddedAssistantStub.send [] (assistant self)) self
  | S _ =>
      let (self, reqs) := gen_assist_requests self (captured rpc) in
      set_assistant
        (EmbeddedAssistantStub.send (firstn (pulled rpc) reqs)
           (assistant self)) self
  end.

(** The body of the [for resp in ...] loop of [assist]. *)
Definition on_response (st : Assistant * bool) (resp : AssistResponse.t)
  : Assistant * bool :=
  let (self, continue_conversation) := st in
  let dialog_state_out := AssistResponse.dialog_state_out resp in
  let self :=
    if AssistResponse.event_type resp =? END_OF_UTTERANCE
    then on_stream stop_recording self
    else self in
  (* [if resp.speech_results:] only logs the transcript. *)
  let audio_data := AudioOut.audio_data (AssistResponse.audio_out resp) in
  let self :=
    if (0 <? List.length audio_data)%nat then
      let self :=
        if negb (playing (conversation_stream self))
        then on_stream start_playback (on_stream stop_recording self)
        else self in
      on_stream (write audio_data) self
    else self in
  let self :=
    if bool_bytes (DialogStateOut.conversation_state dialog_state_out)
    then set_conversation_state
           (Some (DialogStateOut.conversation_state dialog_state_out)) self
    else self in
  let self :=
    if negb (DialogStateOut.volume_percentage dialog_state_out =? 0)
    then on_stream
           (set_volume_percentage
              (DialogStateOut.volume_percentage dialog_state_out)) self
    else self in
  let continue_conversation :=
    if DialogStateOut.microphone_mode dialog_state_out =? DIALOG_FOLLOW_ON
    then true
    else if DialogStateOut.microphone_mode dialog_state_out
            =? CLOSE_MICROPHONE
    then false
    else continue_conversation in
  (self, continue_conversation).

(** The undecorated [Assistant.assist].  [device_actions_futures] is never
    appended to, so the wait on it is skipped.  An exception ends the call
    where it is raised, before [stop_playback]. *)
Definition assist_body (rpc : Rpc) (self : Assistant)
  : Outcome bool * Assistant :=
  let continue_conversation := false in
  let self := on_stream start_recording self in
  let self := Assist_outbound rpc self in
  let (self, continue_conversation) :=
    fold_left on_response (responses rpc) (self, continue_conversation) in
  match error rpc with
  | Some e => (Raised e, self)
  | None => (Returned continue_conversation, on_stream stop_playback self)
  end.

(** [Assistant.assist] as decorated:
    [@retry(reraise=True, stop=stop_after_attempt(3),
            retry=retry_if_exception(is_grpc_error_unavailable))].
    [script n] is what the outside does during attempt [n]. *)
Definition assist (script : nat -> Rpc) (self : Assistant)
  : option (Outcome bool * Assistant * list (Outcome bool)) :=
  Tenacity.call is_grpc_error_unavailable 3
    (fun attempt_number => assist_body (script attempt_number)) self.

(** A session: [assist] called once per script, in order, each call on the
    state the previous one left, whatever its outcome.  The outcomes are
    returned oldest first; [None] only if a call gave no result. *)
Fixpoint run_turns (scripts : list (nat -> Rpc)) (self : Assistant)
  : option (list (Outcome bool) * Assistant) :=
  match scripts with
  | [] => Some ([], self)
  | script :: rest =>
      match assist script self with
      | None => None
      | Some (o, self', _) =>
          match run_turns rest self' with
          | None => None
          | Some (os, self'') => Some (o :: os, self'')
          end
      end
  end.

(** The flag held and the flags sent agree, see [once]. *)
Definition flag_once (self : Assistant) : Prop :=
  EmbeddedAssistantStub.once (is_new_conversation self)
    (EmbeddedAssistantStub.new_conversation_flags (assistant self)).

(** The log of the stub begins with the request sequence [first]. *)
Definition log_begins (first : list AssistRequest) (self : Assistant)
  : Prop :=
  exists more,
    EmbeddedAssistantStub.outbound (assistant self) = first :: more.

(** The calls that one run of the body makes on the stream: what the trace
    of the stream has gained. *)
Definition turn_calls (rpc : Rpc) (self : Assistant) : list Call :=
  skipn (List.length (calls (conversation_stream self)))
    (calls (conversation_stream (snd (assist_body rpc self)))).

(** The inbound events of attempts [1] to [k] of a decorated call, in the
    order received. *)
Definition received (script : nat -> Rpc) (k : nat) : list AssistResponse.t :=
  flat_map (fun n => responses (script n)) (seq 1 k).

End AssistantPy.

(* ===================================================================== *)
(** ** textinput.py *)

Module TextInput.

Import Py Grpc Proto Tenacity.
Local Open Scope Z_scope.

Definition DEFAULT_GRPC_DEADLINE : Z := 60 * 3 + 5.
Definition DEVICE_MODEL_ID : string := "telephonepi-telephonepi-01z0jk".
Definition LANGUAGE_CODE : string := "en-US".

(** The fields of a [SampleTextAssistant] instance. *)
Record SampleTextAssistant : Type := Build
  { language_code : string;
    device_model_id : string;
    device_id : string;
    conversation_state : option bytes;
    is_new_conversation : bool;
    display : bool;
    assistant : EmbeddedAssistantStub.t;
    deadline : Z }.

Definition set_conversation_state (b : option bytes)
  (self : SampleTextAssistant) : SampleTextAssistant :=
  {| language_code := language_code self;
     device_model_id := device_model_id self;
     device_id := device_id self;
     conversation_state := b;
     is_new_conversation := is_new_conversation self;
     display := display self;
     assistant := assistant self;
     deadline := deadline self |}.

Definition set_is_new_conversation (b : bool) (self : SampleTextAssistant)
  : SampleTextAssistant :=
  {| language_code := language_code self;
     device_model_id := device_model_id self;
     device_id := device_id self;
     conversation_state := conversation_state self;
     is_new_conversation := b;
     display := display self;
     assistant := assistant self;
     deadline := deadline self |}.

Definition set_assistant (stub : EmbeddedAssistantStub.t)
  (self : SampleTextAssistant) : SampleTextAssistant :=
  {| language_code := language_code self;
     device_model_id := device_model_id self;
     device_id := device_id self;
     conversation_state := conversation_state self;
     is_new_conversation := is_new_conversation self;
     display := display self;
     assistant := stub;
     deadline := deadline self |}.

(** [SampleTextAssistant.__init__]; the channel becomes a fresh stub. *)
Definition __init__ (language_code device_model_id device_id : string)
  (display : bool) (deadline_sec : Z) : SampleTextAssistant :=
  {| language_code := language_code;
     device_model_id := device_model_id;
     device_id := device_id;
     conversation_state := None;
     is_new_conversation := true;
     display := display;
     assistant := EmbeddedAssistantStub.create;
     deadline := deadline_sec |}.

(** The config built by [iter_assist_requests]. *)
Definition build_config (query : string) (self : SampleTextAssistant)
  : AssistConfig.t :=
  {| AssistConfig.type := text_query query;
     AssistConfig.audio_out_config :=
       {| AudioOutConfig.encoding := "LINEAR16";
          AudioOutConfig.sample_rate_hertz := 16000;
          AudioOutConfig.volume_percentage := 0 |};
     AssistConfig.dialog_state_in :=
       {| DialogStateIn.language_code := language_code self;
          DialogStateIn.conversation_state := conversation_state self;
          DialogStateIn.is_new_conversation := is_new_conversation self |};
     AssistConfig.device_config :=
       {| DeviceConfig.device_id := device_id self;
          DeviceConfig.device_model_id := device_model_id self |};
     AssistConfig.screen_mode := SCREEN_MODE_UNSPECIFIED |}.

(** The inner generator [iter_assist_requests] of [assist], run to
    exhaustion: the config is built, the flag is cleared, the screen mode
    is set when a display is attached, and the one request is yielded. *)
Definition iter_assist_requests (query : string) (self : SampleTextAssistant)
  : SampleTextAssistant * list AssistRequest :=
  let config := build_config query self in
  let self := set_is_new_conversation false self in
  let config :=
    if display self then AssistConfig.set_screen_mode PLAYING config
    else config in
  (self, [Proto.config config]).

(** What the outside does during one [Assist] call of the text driver. *)
Record Rpc : Type := BuildRpc
  { pulled : nat;
    responses : list AssistResponse.t;
    error : option PyException }.

(** The outbound side of [self.assistant.Assist(iter_assist_requests(), ...)];
    the generator runs nothing before its first [next]. *)
Definition Assist_outbound (query : string) (rpc : Rpc)
  (self : SampleTextAssistant) : SampleTextAssistant :=
  match pulled rpc with
  | O => set_assistant (EmbeddedAssistantStub.send [] (assistant self)) self
  | S _ =>
      let (self, reqs) := iter_assist_requests query self in
      set_assistant
        (EmbeddedAssistantStub.send (firstn (pulled rpc) reqs)
           (assistant self)) self
  end.

(** The state of the [for resp in ...] loop: [self], [text_response] and
    [html_response]. *)
Definition LoopState : Type :=
  (SampleTextAssistant * option string * option bytes)%type.

(** The body of the loop. *)
Definition on_response (st : LoopState) (resp : AssistResponse.t)
  : LoopState :=
  let '(self, text_response, html_response) := st in
  let dialog_state_out := AssistResponse.dialog_state_out resp in
  let html_response :=
    if bool_bytes (ScreenOut.data (AssistResponse.screen_out resp))
    then Some (ScreenOut.data (AssistResponse.screen_out resp))
    else html_response in
  let self :=
    if bool_bytes (DialogStateOut.conversation_state dialog_state_out)
    then set_conversation_state
           (Some (DialogStateOut.conversation_state dialog_state_out)) self
    else self in
  let text_response :=
    if bool_str (DialogStateOut.supplemental_display_text dialog_state_out)
    then Some (DialogStateOut.supplemental_display_text dialog_state_out)
    else text_response in
  (self, text_response, html_response).

(** [SampleTextAssistant.assist]; it is not decorated. *)
Definition assist (query : string) (rpc : Rpc) (self : SampleTextAssistant)
  : Outcome (option string * option bytes) * SampleTextAssistant :=
  let text_response : option string := None in
  let html_response : option bytes := None in
  let self := Assist_outbound query rpc self in
  let '(self, text_response, html_response) :=
    fold_left on_response (responses rpc)
      (self, text_response, html_response) in
  match error rpc with
  | Some e => (Raised e, self)
  | None => (Returned (text_response, html_response), self)
  end.

(** A session of text turns on one instance. *)
Fixpoint run_turns (turns : list (string * Rpc)) (self : SampleTextAssistant)
  : list (Outcome (option string * option bytes)) * SampleTextAssistant :=
  match turns with
  | [] => ([], self)
  | (query, rpc) :: rest =>
      let (o, self) := assist query rpc self in
      let (os, self) := run_turns rest self in
      (o :: os, self)
  end.

(** The flag held and the flags sent agree, see [once]. *)
Definition flag_once (self : SampleTextAssistant) : Prop :=
  EmbeddedAssistantStub.once (is_new_conversation self)
    (EmbeddedAssistantStub.new_conversation_flags (assistant self)).

(** The log of the stub begins with the request sequence [first]. *)
Definition log_begins (first : list AssistRequest)
  (self : SampleTextAssistant) : Prop :=
  exists more,
    EmbeddedAssistantStub.outbound (assistant self) = first :: more.

End TextInput.

(* ===================================================================== *)
(** ** Readings of an inbound event sequence

    What the specification says about a sequence of inbound events, written
    from its words; the theorems below compare the drivers with these. *)

Module Inbound.

Import Py Proto.
Local Open Scope Z_scope.

(** The last element of a list, if any. *)
Fixpoint last_error {A : Type} (l : list A) : option A :=
  match l with
  | [] => None
  | [x] => Some x
  | _ :: rest => last_error rest
  end.

Definition microphone_mode_of (resp : AssistResponse.t) : Z :=
  DialogStateOut.microphone_mode (AssistResponse.dialog_state_out resp).

Definition conversation_state_of (resp : AssistResponse.t) : bytes :=
  DialogStateOut.conversation_state (AssistResponse.dialog_state_out resp).

Definition volume_percentage_of (resp : AssistResponse.t) : Z :=
  DialogStateOut.volume_percentage (AssistResponse.dialog_state_out resp).

Definition display_text_of (resp : AssistResponse.t) : string :=
  DialogStateOut.supplemental_display_text
    (AssistResponse.dialog_state_out resp).

Definition screen_data_of (resp : AssistResponse.t) : bytes :=
  ScreenOut.data (AssistResponse.screen_out resp).

Definition audio_data_of (resp : AssistResponse.t) : bytes :=
  AudioOut.audio_data (AssistResponse.audio_out resp).

(** A microphone-mode directive is follow-on or close; any other value of
    the field is no directive. *)
Definition is_directive (mode : Z) : bool :=
  (mode =? DIALOG_FOLLOW_ON) || (mode =? CLOSE_MICROPHONE).

(** The last follow-on/close directive of the sequence. *)
Definition last_directive (rs : list AssistResponse.t) : option Z :=
  last_error (filter is_directive (map microphone_mode_of rs)).

(** Last-write-wins continuation: true iff the last directive is
    follow-on; false when there is none. *)
Definition continuation_of (rs : list AssistResponse.t) : bool :=
  match last_directive rs with
  | Some mode => mode =? DIALOG_FOLLOW_ON
  | None => false
  end.

(** The last non-empty conversation state of the sequence. *)
Definition last_conversation_state (rs : list AssistResponse.t)
  : option bytes :=
  last_error (filter bool_bytes (map conversation_state_of rs)).

(** The last non-empty supplemental display text of the sequence. *)
Definition last_display_text (rs : list AssistResponse.t) : option string :=
  last_error (filter bool_str (map display_text_of rs)).

(** The last non-empty rich-content payload of the sequence. *)
Definition last_screen_data (rs : list AssistResponse.t) : option bytes :=
  last_error (filter bool_bytes (map screen_data_of rs)).

(** An event is audio-bearing when its audio payload is not empty. *)
Definition audio_bearing (resp : AssistResponse.t) : bool :=
  bool_bytes (audio_data_of resp).

(** An event that carries only a microphone mode. *)
Definition mode_event (mode : Z) : AssistResponse.t :=
  {| AssistResponse.event_type := EVENT_TYPE_UNSPECIFIED;
     AssistResponse.audio_out := {| AudioOut.audio_data := [] |};
     AssistResponse.screen_out :=
       {| ScreenOut.format := 0; ScreenOut.data := [] |};
     AssistResponse.speech_results := [];
     AssistResponse.dialog_state_out :=
       {| DialogStateOut.supplemental_display_text := EmptyString;
          DialogStateOut.conversation_state := [];
          DialogStateOut.microphone_mode := mode;
          DialogStateOut.volume_percentage := 0 |} |}.

(** An event that carries only a volume percentage. *)
Definition volume_event (v : Z) : AssistResponse.t :=
  {| AssistResponse.event_type := EVENT_TYPE_UNSPECIFIED;
     AssistResponse.audio_out := {| AudioOut.audio_data := [] |};
     AssistResponse.screen_out :=
       {| ScreenOut.format := 0; ScreenOut.data := [] |};
     AssistResponse.speech_results := [];
     AssistResponse.dialog_state_out :=
       {| DialogStateOut.supplemental_display_text := EmptyString;
          DialogStateOut.conversation_state := [];
          DialogStateOut.microphone_mode := MICROPHONE_MODE_UNSPECIFIED;
          DialogStateOut.volume_percentage := v |} |}.

(** An event that carries only a conversation state. *)
Definition state_event (b : bytes) : AssistResponse.t :=
  {| AssistResponse.event_type := EVENT_TYPE_UNSPECIFIED;
     AssistResponse.audio_out := {| AudioOut.audio_data := [] |};
     AssistResponse.screen_out :=
       {| ScreenOut.format := 0; ScreenOut.data := [] |};
     AssistResponse.speech_results := [];
     AssistResponse.dialog_state_out :=
       {| DialogStateOut.supplemental_display_text := EmptyString;
          DialogStateOut.conversation_state := b;
          DialogStateOut.microphone_mode := MICROPHONE_MODE_UNSPECIFIED;
          DialogStateOut.volume_percentage := 0 |} |}.

(** The same event with another microphone mode. *)
Definition set_microphone_mode (mode : Z) (resp : AssistResponse.t)
  : AssistResponse.t :=
  {| AssistResponse.event_type := AssistResponse.event_type resp;
     AssistResponse.audio_out := AssistResponse.audio_out resp;
     AssistResponse.screen_out := AssistResponse.screen_out resp;
     AssistResponse.speech_results := AssistResponse.speech_results resp;
     AssistResponse.dialog_state_out :=
       {| DialogStateOut.supplemental_display_text := display_text_of resp;
          DialogStateOut.conversation_state := conversation_state_of resp;
          DialogStateOut.microphone_mode := mode;
          DialogStateOut.volume_percentage := volume_percentage_of resp |} |}.

(** The end-of-utterance marker. *)
Definition end_of_utterance (resp : AssistResponse.t) : bool :=
  AssistResponse.event_type resp =? END_OF_UTTERANCE.

End Inbound.

(* ===================================================================== *)
(** ** Sample inputs *)

Module Sample.

Import Py Grpc Proto AudioHelpers Inbound.
Local Open Scope Z_scope.

(** An idle stream at half volume. *)
Definition stream : ConversationStream :=
  {| recording := false;
     playing := false;
     volume_percentage := 50;
     sample_rate := 16000;
     calls := [] |}.

(** A fresh voice driver. *)
Definition voice : AssistantPy.Assistant :=
  AssistantPy.__init__ "device-1" stream.

(** A fresh text driver. *)
Definition text : TextInput.SampleTextAssistant :=
  TextInput.__init__ TextInput.LANGUAGE_CODE TextInput.DEVICE_MODEL_ID
    "device-1" false TextInput.DEFAULT_GRPC_DEADLINE.

Definition state1 : bytes := [Byte.x01; Byte.x02].
Definition state2 : bytes := [Byte.x03].
Definition chunk : bytes := [Byte.x10; Byte.x20].

(** An event with an end of utterance and a close directive. *)
Definition end_event : AssistResponse.t :=
  {| AssistResponse.event_type := END_OF_UTTERANCE;
     AssistResponse.audio_out := {| AudioOut.audio_data := [] |};
     AssistResponse.screen_out :=
       {| ScreenOut.format := 0; ScreenOut.data := [] |};
     AssistResponse.speech_results := [];
     AssistResponse.dialog_state_out :=
       {| DialogStateOut.supplemental_display_text := EmptyString;
          DialogStateOut.conversation_state := [];
          DialogStateOut.microphone_mode := CLOSE_MICROPHONE;
          DialogStateOut.volume_percentage := 0 |} |}.

(** A voice turn whose first attempt receives [state1] and then fails with
    UNAVAILABLE, and whose second attempt receives [state2] and a follow-on
    directive and ends normally. *)
Definition flaky (attempt_number : nat) : AssistantPy.Rpc :=
  match attempt_number with
  | 1%nat =>
      AssistantPy.BuildRpc [chunk] 2 [state_event state1]
        (Some (RpcError UNAVAILABLE "connection refused"))
  | _ =>
      AssistantPy.BuildRpc [chunk] 2
        [state_event state2; mode_event DIALOG_FOLLOW_ON] None
  end.

(** A voice turn with an end of utterance and a volume update, and no
    audio. *)
Definition silent : AssistantPy.Rpc :=
  AssistantPy.BuildRpc [] 1 [end_event; volume_event 45] None.

(** A voice turn with no inbound event at all. *)
Definition empty : AssistantPy.Rpc := AssistantPy.BuildRpc [] 1 [] None.

(** An event that carries only audio. *)
Definition audio_event (data : bytes) : AssistResponse.t :=
  {| AssistResponse.event_type := EVENT_TYPE_UNSPECIFIED;
     AssistResponse.audio_out := {| AudioOut.audio_data := data |};
     AssistResponse.screen_out :=
       {| ScreenOut.format := 0; ScreenOut.data := [] |};
     AssistResponse.speech_results := [];
     AssistResponse.dialog_state_out :=
       {| DialogStateOut.supplemental_display_text := EmptyString;
          DialogStateOut.conversation_state := [];
          DialogStateOut.microphone_mode := MICROPHONE_MODE_UNSPECIFIED;
          DialogStateOut.volume_percentage := 0 |} |}.

(** An event of the text turn: a display text and a screen payload. *)
Definition display_event (text : string) (html : bytes) : AssistResponse.t :=
  {| AssistResponse.event_type := EVENT_TYPE_UNSPECIFIED;
     AssistResponse.audio_out := {| AudioOut.audio_data := [] |};
     AssistResponse.screen_out :=
       {| ScreenOut.format := 1; ScreenOut.data := html |};
     AssistResponse.speech_results := [];
     AssistResponse.dialog_state_out :=
       {| DialogStateOut.supplemental_display_text := text;
          DialogStateOut.conversation_state := [];
          DialogStateOut.microphone_mode := DIALOG_FOLLOW_ON;
          DialogStateOut.volume_percentage := 0 |} |}.

(** A voice turn that answers with two chunks of audio. *)
Definition spoken : AssistantPy.Rpc :=
  AssistantPy.BuildRpc [chunk; chunk] 3
    [end_event; audio_event state1; audio_event state2] None.

(** A voice turn all of whose attempts fail with UNAVAILABLE. *)
Definition down (attempt_number : nat) : AssistantPy.Rpc :=
  AssistantPy.BuildRpc [] 0 []
    (Some (RpcError UNAVAILABLE
             (match attempt_number with
              | 1%nat => "first"
              | 2%nat => "second"
              | _ => "third"
              end))).

(** A voice turn that fails with another status. *)
Definition expired (attempt_number : nat) : AssistantPy.Rpc :=
  AssistantPy.BuildRpc [chunk] 2 [state_event state1]
    (Some (RpcError DEADLINE_EXCEEDED "deadline exceeded")).

(** A voice turn whose stream fails on a device error. *)
Definition broken (attempt_number : nat) : AssistantPy.Rpc :=
  AssistantPy.BuildRpc [] 1 []
    (Some (OtherException "PortAudioError" "device unavailable")).

(** A text turn with two display events and a state. *)
Definition reply : TextInput.Rpc :=
  TextInput.BuildRpc 1
    [display_event "one" state1; state_event state2;
     display_event "two" []] None.

End Sample.

(* ===================================================================== *)
(** ** The calls of the response loop, event by event *)

Module Turn.

Import Py Grpc Proto AudioHelpers Inbound.
Local Open Scope Z_scope.

Definition is_write (c : Call) : bool :=
  match c with
  | Write _ => true
  | _ => false
  end.

Definition is_start_recording (c : Call) : bool :=
  match c with
  | StartRecording => true
  | _ => false
  end.

Definition is_stop_recording (c : Call) : bool :=
  match c with
  | StopRecording => true
  | _ => false
  end.

(** The calls that the loop of [Assistant.assist] makes for one event when
    the stream reports [playing]: a stop of the recording at an end of
    utterance; for a non-empty audio payload, a stop of the recording and a
    start of the playback unless already playing, then the write. *)
Definition event_calls (playing : bool) (resp : AssistResponse.t)
  : list Call :=
  (if end_of_utterance resp then [StopRecording] else []) ++
  (if audio_bearing resp
   then (if playing then [] else [StopRecording; StartPlayback]) ++
        [Write (audio_data_of resp)]
   else []).

(** The calls of the loop over a sequence of events. *)
Fixpoint loop_calls (playing : bool) (rs : list AssistResponse.t)
  : list Call :=
  match rs with
  | [] => []
  | resp :: rest =>
      event_calls playing resp ++
      loop_calls (playing || audio_bearing resp) rest
  end.

(** The last nonzero volume percentage of the sequence. *)
Definition last_volume (rs : list AssistResponse.t) : option Z :=
  last_error (filter (fun v => negb (v =? 0)) (map volume_percentage_of rs)).

(** The same exchange with the microphone mode of every event replaced. *)
Definition remode (f : AssistResponse.t -> Z) (rpc : AssistantPy.Rpc)
  : AssistantPy.Rpc :=
  AssistantPy.BuildRpc (AssistantPy.captured rpc) (AssistantPy.pulled rpc)
    (map (fun r => set_microphone_mode (f r) r) (AssistantPy.responses rpc))
    (AssistantPy.error rpc).

(** What [main] can see of an outcome: the exception, if any. *)
Definition exception_of {Res : Type} (o : Tenacity.Outcome Res)
  : option PyException :=
  match o with
  | Tenacity.Returned _ => None
  | Tenacity.Raised e => Some e
  end.

End Turn.

(* ===================================================================== *)
(** ** [main] of assistant.py *)

Module AssistantMain.

Import Py Grpc Proto AudioHelpers Tenacity.
Import AssistantPy.

(** How a run of [main] ends: the exception that leaves the [with] block,
    if any; the driver; the lines printed; and whether [__exit__] closed
    the stream. *)
Record End : Type := BuildEnd
  { raised : option PyException;
    driver : Assistant;
    printed : list string;
    closed : bool }.

(** [Assistant.__exit__]: with an exception it returns [False] at once;
    without one it closes the stream and returns [None].  Neither value
    suppresses the exception.  The result is whether [close] was called. *)
Definition __exit__ (e : option PyException) : bool :=
  match e with
  | Some _ => false
  | None => true
  end.

(** The loop [while trigger.is_pressed: ... assistant.assist() ...].  The
    button is read before every turn; [held] is the number of readings that
    are true before the first false one.  [scripts turn] is what the
    outside does during turn number [turn].  The value that [assist]
    returns is dropped; an exception leaves the loop. *)
Fixpoint main_loop (held turn : nat) (scripts : nat -> nat -> Rpc)
  (self : Assistant) (out : list string)
  : option (option PyException * Assistant * list string) :=
  match held with
  | O => Some (None, self, out)
  | S held' =>
      let out := out ++ ["Running assist"%string] in
      match assist (scripts turn) self with
      | None => None
      | Some (Raised e, self, _) => Some (Some e, self, out)
      | Some (Returned _, self, _) =>
          let out := out ++ ["Done with assist"%string] in
          main_loop held' (S turn) scripts self out
      end
  end.

(** The body of [main] from the [with] statement on: the credentials, the
    channel and the audio devices are given from outside, as is the stream
    built from them; [wait_for_press] returns when the button is pressed. *)
Definition main (device_id : string) (stream : ConversationStream)
  (held : nat) (scripts : nat -> nat -> Rpc) : option End :=
  let assistant := AssistantPy.__init__ device_id stream in
  let out := ["Waiting for trigger..."%string] in
  let out := out ++ ["Triggered!"%string] in
  match main_loop held 0 scripts assistant out with
  | None => None
  | Some (e, assistant, out) =>
      Some {| raised := e;
              driver := assistant;
              printed := out;
              closed := __exit__ e |}
  end.

(** The lines of [n] turns that returned. *)
Fixpoint turn_lines (n : nat) : list string :=
  match n with
  | O => []
  | S n' => "Running assist"%string :: "Done with assist"%string
            :: turn_lines n'
  end.

End AssistantMain.

(* ===================================================================== *)
(** ** [main] of textinput.py *)

Module TextMain.

Import Py Grpc Proto Tenacity Inbound.
Import TextInput.

(** What [click.echo] writes: a line of text, or bytes as they are. *)
Inductive Echo : Type :=
| Line (s : string)
| Raw (b : bytes).

(** [click.prompt] raises [click.Abort] when the input ends. *)
Definition Abort : PyException := OtherException "Abort" EmptyString.

(** How a run of [main] ends: [while True] is only left by an
    exception. *)
Record End : Type := BuildEnd
  { raised : PyException;
    driver : SampleTextAssistant;
    echoed : list Echo }.

(** The lines echoed after [assist] returned. *)
Definition echo_response (response : option string * option bytes)
  : list Echo :=
  let (response_text, response_html) := response in
  (match response_text with
   | Some text =>
       if bool_str text then [Line ("<@assistant> " ++ text)] else []
   | None => []
   end) ++
  (match response_html with
   | Some html => if bool_bytes html then [Raw html] else []
   | None => []
   end).

(** The loop of [main]: [inputs] are the queries that the prompt returns,
    each with what the outside does during its turn; after the last one the
    input ends. *)
Fixpoint main_loop (inputs : list (string * Rpc))
  (self : SampleTextAssistant) (out : list Echo) : End :=
  match inputs with
  | [] => {| raised := Abort; driver := self; echoed := out |}
  | (query, rpc) :: rest =>
      let out := out ++ [Line ("<you> " ++ query)] in
      match assist query rpc self with
      | (Raised e, self) => {| raised := e; driver := self; echoed := out |}
      | (Returned response, self) =>
          main_loop rest self (out ++ echo_response response)
      end
  end.

(** The body of [main] from the [with] statement on.
    [SampleTextAssistant.__exit__] returns [False] or [None], so the
    exception leaves the [with] block. *)
Definition main (device_id : string) (inputs : list (string * Rpc)) : End :=
  main_loop inputs
    (TextInput.__init__ LANGUAGE_CODE DEVICE_MODEL_ID device_id false
       DEFAULT_GRPC_DEADLINE) [].

(** The lines of one turn whose inbound sequence is [rs]. *)
Definition turn_echo (query : string) (rs : list AssistResponse.t)
  : list Echo :=
  Line ("<you> " ++ query) ::
  (match last_display_text rs with
   | Some text => [Line ("<@assistant> " ++ text)]
   | None => []
   end) ++
  (match last_screen_data rs with
   | Some html => [Raw html]
   | None => []
   end).

End TextMain.

(* ===================================================================== *)
(** ** What the configs of a session have in common *)

Module Identity.

Import Py Grpc Proto AudioHelpers.
Local Open Scope Z_scope.

(** A config of the voice driver built for device [d] on a stream of
    sample rate [rate]: its device, its language, its audio formats, and
    no screen output. *)
Definition voice_config (d : string) (rate : Z) (c : AssistConfig.t) : Prop :=
  AssistConfig.device_config c =
    {| DeviceConfig.device_id := d;
       DeviceConfig.device_model_id := AssistantPy.DEVICE_MODEL_ID |} /\
  DialogStateIn.language_code (AssistConfig.dialog_state_in c)
    = AssistantPy.LANGUAGE_CODE /\
  AssistConfig.type c =
    audio_in_config {| AudioInConfig.encoding := "LINEAR16";
                       AudioInConfig.sample_rate_hertz := rate |} /\
  AudioOutConfig.encoding (AssistConfig.audio_out_config c) = "LINEAR16"%string
  /\
  AudioOutConfig.sample_rate_hertz (AssistConfig.audio_out_config c) = rate /\
  AssistConfig.screen_mode c = SCREEN_MODE_UNSPECIFIED.

(** The fields of the voice driver that no turn changes, and the configs
    it has sent. *)
Definition voice_driver (d : string) (rate : Z) (self : AssistantPy.Assistant)
  : Prop :=
  AssistantPy.device_id self = d /\
  AssistantPy.device_model_id self = AssistantPy.DEVICE_MODEL_ID /\
  AssistantPy.language_code self = AssistantPy.LANGUAGE_CODE /\
  AssistantPy.display self = false /\
  sample_rate (AssistantPy.conversation_stream self) = rate /\
  Forall (voice_config d rate)
    (EmbeddedAssistantStub.sent_configs (AssistantPy.assistant self)).

(** A config of the text driver built with the given constructor
    arguments for one of the queries [queries]. *)
Definition text_config (language_code device_model_id device_id : string)
  (display : bool) (queries : list string) (c : AssistConfig.t) : Prop :=
  AssistConfig.device_config c =
    {| DeviceConfig.device_id := device_id;
       DeviceConfig.device_model_id := device_model_id |} /\
  DialogStateIn.language_code (AssistConfig.dialog_state_in c)
    = language_code /\
  (exists query, In query queries /\ AssistConfig.type c = text_query query)
  /\
  AssistConfig.audio_out_config c =
    {| AudioOutConfig.encoding := "LINEAR16";
       AudioOutConfig.sample_rate_hertz := 16000;
       AudioOutConfig.volume_percentage := 0 |} /\
  AssistConfig.screen_mode c =
    (if display then PLAYING else SCREEN_MODE_UNSPECIFIED).

(** The fields of the text driver that no turn changes, and the configs it
    has sent. *)
Definition text_driver (language_code device_model_id device_id : string)
  (display : bool) (queries : list string)
  (self : TextInput.SampleTextAssistant) : Prop :=
  TextInput.language_code self = language_code /\
  TextInput.device_model_id self = device_model_id /\
  TextInput.device_id self = device_id /\
  TextInput.display self = display /\
  Forall (text_config language_code device_model_id device_id display queries)
    (EmbeddedAssistantStub.sent_configs (TextInput.assistant self)).

End Identity.

(* ===================================================================== *)
(** ** Sample sessions *)

Module Session.

Import Py Grpc Proto Inbound.

(** Every turn of the voice [main] is the silent turn. *)
Definition quiet (turn attempt_number : nat) : AssistantPy.Rpc :=
  Sample.silent.

(** Two silent turns, then a turn that fails with another status. *)
Definition failing (turn attempt_number : nat) : AssistantPy.Rpc :=
  match turn with
  | 2%nat => Sample.expired attempt_number
  | _ => Sample.silent
  end.

(** A text turn that fails after one display event. *)
Definition lost : TextInput.Rpc :=
  TextInput.BuildRpc 1 [Sample.display_event "partial" Sample.state1]
    (Some (RpcError UNAVAILABLE "connection reset")).

(** A voice turn that fails after the answer has begun to play. *)
Definition interrupted : AssistantPy.Rpc :=
  AssistantPy.BuildRpc [Sample.chunk] 2
    [Sample.end_event; Sample.audio_event Sample.state1]
    (Some (RpcError UNAVAILABLE "connection reset")).

End Session.

(* ===================================================================== *)
(** * Properties *)

(** Case analysis on every test of a conditional in the goal. *)
Ltac split_ifs :=
  repeat match goal with
         | |- context [if ?b then _ else _] => destruct b
         end.

(** ** Lists *)

Section LastError.

Import Inbound.

Variable A : Type.

Lemma last_error_snoc (l : list A) (x : A) : last_error (l ++ [x]) = Some x.
Proof.
  induction l as [|y l IH]; [reflexivity|].
  simpl. destruct (l ++ [x]) eqn:E.
  - destruct l; discriminate.
  - exact IH.
Qed.

Lemma last_error_filter_snoc (p : A -> bool) (l : list A) (x : A) :
  last_error (filter p (l ++ [x])) =
  if p x then Some x else last_error (filter p l).
Proof.
  rewrite filter_app. simpl. destruct (p x).
  - apply last_error_snoc.
  - rewrite app_nil_r. reflexivity.
Qed.

Lemma last_error_app (l m : list A) :
  last_error (l ++ m) =
  match last_error m with
  | Some x => Some x
  | None => last_error l
  end.
Proof.
  induction m as [|x m IH] using rev_ind.
  - rewrite app_nil_r. reflexivity.
  - rewrite app_assoc, !last_error_snoc. reflexivity.
Qed.

End LastError.

(** ** The retrying call *)

Section RetryingFacts.

Import Grpc Tenacity.

Variables St Res : Type.
Variable predicate : PyException -> bool.
Variable max_attempt_number : nat.
Variable fn : nat -> St -> Outcome Res * St.

Let loop := retry_loop predicate max_attempt_number fn.
Let retried := retry_if_exception (Res := Res) predicate.

(** With fuel for every attempt up to the stop condition, the loop ends. *)
Lemma retry_loop_total (fuel n : nat) (st : St) :
  (0 < fuel)%nat -> (max_attempt_number < n + fuel)%nat ->
  exists r, loop fuel n st = Some r.
Proof.
  revert n st. induction fuel as [|fuel IH]; intros n st Hpos Hmax; [lia|].
  unfold loop. simpl. destruct (fn n st) as [o st'].
  destruct (negb (retry_if_exception predicate o)); [eauto|].
  unfold stop_after_attempt.
  destruct (max_attempt_number <=? n)%nat eqn:Hstop; [eauto|].
  apply Nat.leb_gt in Hstop.
  destruct (IH (S n) st') as [[[final st''] attempts] Hr]; [lia|lia|].
  unfold loop in Hr. rewrite Hr. eauto.
Qed.

(** The shape of a finished call: the attempts made are the consecutive
    attempts from [n]; every one but the last raised an exception that the
    predicate accepts; the last one either is not to be retried, and is the
    result, or reached the stop condition, and is raised again. *)
Lemma retry_loop_shape (fuel n : nat) (st st' : St) (final : Outcome Res)
  (attempts : list (Outcome Res)) :
  loop fuel n st = Some (final, st', attempts) ->
  run_from fn (List.length attempts) n st = (st', attempts) /\
  exists (earlier : list (Outcome Res)) (o : Outcome Res),
    attempts = earlier ++ [o] /\
    Forall (fun o' => retried o' = true) earlier /\
    ((retried o = false /\ final = o) \/
     (retried o = true /\ final = reraise o /\
      (max_attempt_number <= n + List.length earlier)%nat)) /\
    (forall i, (i < List.length earlier)%nat ->
               (n + i < max_attempt_number)%nat).
Proof.
  revert n st st' final attempts.
  induction fuel as [|fuel IH]; intros n st st' final attempts; [discriminate|].
  unfold loop. simpl. destruct (fn n st) as [o st1] eqn:Hfn.
  destruct (retry_if_exception predicate o) eqn:Hretry; simpl.
  - unfold stop_after_attempt.
    destruct (max_attempt_number <=? n)%nat eqn:Hstop.
    + intros H. injection H as Hf Hs Ha. subst final st' attempts.
      simpl. rewrite Hfn. split; [reflexivity|].
      exists [], o. apply Nat.leb_le in Hstop.
      repeat split; auto.
      * right. repeat split; auto. simpl. lia.
      * simpl. intros i Hi. lia.
    + apply Nat.leb_gt in Hstop.
      destruct (retry_loop predicate max_attempt_number fn fuel (S n) st1)
        as [[[final1 st2] attempts1]|] eqn:Hrec; [|discriminate].
      intros H. injection H as Hf Hs Ha. subst final1 st2 attempts.
      destruct (IH _ _ _ _ _ Hrec)
        as (Hrun & earlier & o1 & Heq & Hall & Hlast & Hlt).
      split.
      * simpl. rewrite Hfn, Hrun. reflexivity.
      * exists (o :: earlier), o1. subst attempts1. repeat split.
        -- constructor; assumption.
        -- destruct Hlast as [Hl|(Hr1 & Hr2 & Hr3)]; [left; exact Hl|].
           right. repeat split; auto. simpl. lia.
        -- intros i Hi. simpl in Hi. destruct i as [|i]; [lia|].
           specialize (Hlt i). lia.
  - intros H. injection H as Hf Hs Ha. subst final st' attempts.
    simpl. rewrite Hfn. split; [reflexivity|].
    exists [], o. repeat split; auto.
    simpl. intros i Hi. lia.
Qed.

(** A property of the state that every attempt preserves still holds when
    the call ends. *)
Lemma retry_loop_invariant (P : St -> Prop) :
  (forall n st, P st -> P (snd (fn n st))) ->
  forall fuel n st final st' attempts,
    P st -> loop fuel n st = Some (final, st', attempts) -> P st'.
Proof.
  intros Hstep. induction fuel as [|fuel IH]; intros n st final st' attempts HP;
    [discriminate|].
  unfold loop. simpl. specialize (Hstep n st HP).
  destruct (fn n st) as [o st1]. simpl in Hstep.
  destruct (negb (retry_if_exception predicate o)).
  - intros H. injection H as Hf Hs Ha. subst st'. exact Hstep.
  - destruct (stop_after_attempt max_attempt_number n).
    + intros H. injection H as Hf Hs Ha. subst st'. exact Hstep.
    + destruct (retry_loop predicate max_attempt_number fn fuel (S n) st1)
        as [[[final1 st2] attempts1]|] eqn:Hrec; [|discriminate].
      intros H. injection H as Hf Hs Ha. subst st2.
      eapply IH; [exact Hstep|exact Hrec].
Qed.

(** Each outcome of consecutive attempts is what the function gives for
    that attempt number, on some state. *)
Lemma run_from_nth (k n : nat) (st st' : St) (os : list (Outcome Res)) :
  run_from fn k n st = (st', os) ->
  List.length os = k /\
  forall i o, nth_error os i = Some o ->
              exists s, o = fst (fn (n + i)%nat s).
Proof.
  revert n st st' os. induction k as [|k IH]; intros n st st' os; simpl.
  - intros H. injection H as Hs Ho. subst os. split; [reflexivity|].
    intros [|i] o Hnth; discriminate.
  - destruct (fn n st) as [o1 st1] eqn:Hfn.
    destruct (run_from fn k (S n) st1) as [st2 os1] eqn:Hrun.
    intros H. injection H as Hs Ho. subst os st2.
    destruct (IH _ _ _ _ Hrun) as [Hlen Hnth]. split; [simpl; lia|].
    intros [|i] o Hi; simpl in Hi.
    + injection Hi as Hi. subst o. exists st.
      rewrite Nat.add_0_r, Hfn. reflexivity.
    + destruct (Hnth i o Hi) as [s Hs]. exists s.
      replace (n + S i)%nat with (S n + i)%nat by lia. exact Hs.
Qed.


End RetryingFacts.

(** ** The response loop of the voice driver *)

Section VoiceLoop.

Import Py Grpc Proto AudioHelpers Tenacity Inbound.
Import AssistantPy.
Local Open Scope Z_scope.

(** The flag after one event depends on the flag before it and on the
    microphone mode of the event only. *)
Lemma on_response_continue (self : Assistant) (c : bool)
  (resp : AssistResponse.t) :
  snd (on_response (self, c) resp) =
  if microphone_mode_of resp =? DIALOG_FOLLOW_ON then true
  else if microphone_mode_of resp =? CLOSE_MICROPHONE then false
  else c.
Proof. reflexivity. Qed.

Lemma fold_on_response_snoc (rs : list AssistResponse.t)
  (resp : AssistResponse.t) (st : Assistant * bool) :
  fold_left on_response (rs ++ [resp]) st =
  on_response (fold_left on_response rs st) resp.
Proof. rewrite fold_left_app. reflexivity. Qed.

(** The flag after a sequence of events, from any starting value. *)
Lemma fold_on_response_continue (rs : list AssistResponse.t)
  (self : Assistant) (c : bool) :
  snd (fold_left on_response rs (self, c)) =
  match last_directive rs with
  | Some mode => mode =? DIALOG_FOLLOW_ON
  | None => c
  end.
Proof.
  induction rs as [|resp rs IH] using rev_ind; [reflexivity|].
  rewrite fold_on_response_snoc.
  destruct (fold_left on_response rs (self, c)) as [self' c'] eqn:Hfold.
  rewrite on_response_continue. simpl in IH. subst c'.
  unfold last_directive. rewrite map_app. simpl.
  rewrite last_error_filter_snoc. unfold is_directive.
  destruct (microphone_mode_of resp =? DIALOG_FOLLOW_ON) eqn:Hfo; simpl.
  - symmetry. exact Hfo.
  - destruct (microphone_mode_of resp =? CLOSE_MICROPHONE);
      [symmetry; exact Hfo | reflexivity].
Qed.

(** The stored conversation state after one event. *)
Lemma on_response_conversation_state (self : Assistant) (c : bool)
  (resp : AssistResponse.t) :
  conversation_state (fst (on_response (self, c) resp)) =
  if bool_bytes (conversation_state_of resp)
  then Some (conversation_state_of resp)
  else conversation_state self.
Proof.
  unfold on_response, conversation_state_of. split_ifs; reflexivity.
Qed.

(** The stored conversation state after a sequence of events. *)
Lemma fold_on_response_conversation_state (rs : list AssistResponse.t)
  (self : Assistant) (c : bool) :
  conversation_state (fst (fold_left on_response rs (self, c))) =
  match last_conversation_state rs with
  | Some b => Some b
  | None => conversation_state self
  end.
Proof.
  induction rs as [|resp rs IH] using rev_ind; [reflexivity|].
  rewrite fold_on_response_snoc.
  destruct (fold_left on_response rs (self, c)) as [self' c'] eqn:Hfold.
  rewrite on_response_conversation_state. simpl in IH. rewrite IH.
  unfold last_conversation_state. rewrite map_app. simpl.
  rewrite last_error_filter_snoc.
  destruct (bool_bytes (conversation_state_of resp)); reflexivity.
Qed.

(** The loop leaves the new-conversation flag and the stub alone. *)
Lemma on_response_frame (st : Assistant * bool) (resp : AssistResponse.t) :
  is_new_conversation (fst (on_response st resp)) =
    is_new_conversation (fst st) /\
  assistant (fst (on_response st resp)) = assistant (fst st).
Proof.
  destruct st as [self c]. unfold on_response. split_ifs; split; reflexivity.
Qed.

Lemma fold_on_response_frame (rs : list AssistResponse.t)
  (st : Assistant * bool) :
  is_new_conversation (fst (fold_left on_response rs st)) =
    is_new_conversation (fst st) /\
  assistant (fst (fold_left on_response rs st)) = assistant (fst st).
Proof.
  revert st. induction rs as [|resp rs IH]; intros st; [split; reflexivity|].
  simpl. destruct (IH (on_response st resp)) as [H1 H2].
  destruct (on_response_frame st resp) as [H3 H4].
  split; congruence.
Qed.

End VoiceLoop.

(** ** The voice turn *)

Section VoiceTurn.

Import Py Grpc Proto AudioHelpers Tenacity Inbound.
Import AssistantPy.
Local Open Scope Z_scope.

(** The outcome of one run of the body: the exception that ended the
    inbound iteration, or the flag the loop left. *)
Lemma assist_body_outcome (rpc : Rpc) (self : Assistant) :
  fst (assist_body rpc self) =
  match error rpc with
  | Some e => Raised e
  | None => Returned (continuation_of (responses rpc))
  end.
Proof.
  unfold assist_body.
  pose proof (fold_on_response_continue (responses rpc)
                (Assist_outbound rpc (on_stream start_recording self)) false)
    as Hc.
  destruct (fold_left on_response (responses rpc)
              (Assist_outbound rpc (on_stream start_recording self), false))
    as [self' c'].
  simpl in Hc. subst c'.
  destruct (error rpc); reflexivity.
Qed.

(** The decorated call always gives a result. *)
Lemma assist_total (script : nat -> Rpc) (self : Assistant) :
  exists o self' attempts, assist script self = Some (o, self', attempts).
Proof.
  destruct (@retry_loop_total _ _ is_grpc_error_unavailable 3
              (fun n => assist_body (script n)) 4 1 self)
    as [[[o self'] attempts] H]; [lia|lia|].
  exists o, self', attempts. exact H.
Qed.

(** The predicate accepts exactly the RPC errors with status UNAVAILABLE. *)
Lemma is_grpc_error_unavailable_iff (e : PyException) :
  is_grpc_error_unavailable e = true <->
  exists details, e = RpcError UNAVAILABLE details.
Proof.
  split.
  - destruct e as [code details|cls msg]; simpl; [|discriminate].
    destruct code; simpl; try discriminate. intros _. eauto.
  - intros [details ->]. reflexivity.
Qed.

(** An attempt is retried exactly when it raised such an error. *)
Lemma retried_iff (o : Outcome bool) :
  retry_if_exception is_grpc_error_unavailable o = true <->
  exists details, o = Raised (RpcError UNAVAILABLE details).
Proof.
  destruct o as [b|e]; simpl.
  - split; [discriminate|]. intros [d H]. discriminate.
  - rewrite is_grpc_error_unavailable_iff. split; intros [d H]; exists d.
    + subst e. reflexivity.
    + injection H as H. exact H.
Qed.

(** The shape of a finished decorated call: between one and three
    consecutive runs of the body; every run but the last raised
    UNAVAILABLE; the result is the outcome of the last run as it is; and
    the last run is the third one unless its outcome is not to be
    retried. *)
Lemma assist_shape (script : nat -> Rpc) (self self' : Assistant)
  (final : Outcome bool) (attempts : list (Outcome bool)) :
  assist script self = Some (final, self', attempts) ->
  exists earlier : list (Outcome bool),
    attempts = earlier ++ [final] /\
    run_from (fun n => assist_body (script n)) (List.length attempts) 1 self
      = (self', attempts) /\
    Forall (fun o => exists details,
                o = Raised (RpcError UNAVAILABLE details)) earlier /\
    (List.length earlier <= 2)%nat /\
    (List.length earlier = 2%nat \/
     retry_if_exception is_grpc_error_unavailable final = false).
Proof.
  intros H. unfold assist, call in H.
  apply retry_loop_shape in H
    as (Hrun & earlier & o & Heq & Hall & Hlast & Hlt).
  assert (Hlen : (List.length earlier <= 2)%nat).
  { destruct (le_lt_dec (List.length earlier) 2) as [Hle|Hgt]; [exact Hle|].
    specialize (Hlt 2%nat Hgt). lia. }
  assert (Hfinal : final = o).
  { destruct Hlast as [[_ Hf]|(Hr & Hf & _)]; [exact Hf|].
    apply retried_iff in Hr. destruct Hr as [d ->]. exact Hf. }
  subst o. exists earlier. repeat split; auto.
  - eapply Forall_impl; [|exact Hall]. intros o Ho. apply retried_iff. exact Ho.
  - destruct Hlast as [[Hr _]|(_ & _ & Hge)]; [right; exact Hr|left; lia].
Qed.

End VoiceTurn.

(** ** Continuation *)

Section Continuation.

Import Py Grpc Proto AudioHelpers Tenacity Inbound.
Import AssistantPy.
Local Open Scope Z_scope.

(** C1.  The value that the voice turn returns is last-write-wins over the
    microphone-mode directives of its inbound sequence.  For every
    sequence that ends with the remote half-closing, the body returns a
    flag that is true exactly when the last follow-on/close directive of
    the sequence is follow-on, and false when the sequence has no such
    directive; [close, follow-on] and [follow-on, close, follow-on] give
    true.  The decorated method always gives a result, and a value it
    returns is that flag for the inbound sequence of the last attempt. *)
Theorem assist_continuation_last_write_wins :
  (forall (cap : list bytes) (n : nat) (rs : list AssistResponse.t)
          (self : Assistant),
     exists b : bool,
       fst (assist_body (BuildRpc cap n rs None) self) = Returned b /\
       (b = true <-> last_directive rs = Some DIALOG_FOLLOW_ON) /\
       (last_directive rs = None -> b = false)) /\
  (forall (cap : list bytes) (n : nat) (self : Assistant),
     fst (assist_body
            (BuildRpc cap n
               [mode_event CLOSE_MICROPHONE; mode_event DIALOG_FOLLOW_ON]
               None) self) = Returned true) /\
  (forall (cap : list bytes) (n : nat) (self : Assistant),
     fst (assist_body
            (BuildRpc cap n
               [mode_event DIALOG_FOLLOW_ON; mode_event CLOSE_MICROPHONE;
                mode_event DIALOG_FOLLOW_ON]
               None) self) = Returned true) /\
  (forall (script : nat -> Rpc) (self : Assistant),
     exists final self' attempts,
       assist script self = Some (final, self', attempts) /\
       forall b : bool,
         final = Returned b ->
         b = continuation_of (responses (script (List.length attempts)))).
Proof.
  split; [|split; [|split]].
  - intros cap n rs self. exists (continuation_of rs).
    rewrite assist_body_outcome. simpl. split; [reflexivity|].
    unfold continuation_of. destruct (last_directive rs) as [mode|].
    + split; [split|discriminate].
      * intros H. apply Z.eqb_eq in H. congruence.
      * intros H. injection H as ->. reflexivity.
    + split; [split; discriminate|reflexivity].
  - intros cap n self. rewrite assist_body_outcome. reflexivity.
  - intros cap n self. rewrite assist_body_outcome. reflexivity.
  - intros script self.
    destruct (assist_total script self) as (final & self' & attempts & H).
    exists final, self', attempts. split; [exact H|].
    intros b Hb.
    apply assist_shape in H as (earlier & Heq & Hrun & _).
    apply run_from_nth in Hrun as [_ Hnth].
    destruct (Hnth (List.length earlier) final) as [s Hs].
    { rewrite Heq, nth_error_app2, Nat.sub_diag by lia. reflexivity. }
    assert (Hk : (1 + List.length earlier)%nat = List.length attempts).
    { rewrite Heq, length_app. simpl. lia. }
    rewrite Hk in Hs. simpl in Hs. rewrite assist_body_outcome in Hs.
    destruct (error (script (List.length attempts))); congruence.
Qed.

(** C10.  An event whose microphone mode is neither follow-on nor close
    leaves the pending flag as it is; appended to any inbound sequence, it
    does not change what the turn returns, so [follow-on, unspecified]
    still gives true. *)
Theorem unspecified_mode_keeps_continuation
  (resp : AssistResponse.t)
  (Hfo : microphone_mode_of resp <> DIALOG_FOLLOW_ON)
  (Hclose : microphone_mode_of resp <> CLOSE_MICROPHONE) :
  (forall (self : Assistant) (c : bool),
     snd (on_response (self, c) resp) = c) /\
  (forall (cap : list bytes) (n : nat) (rs : list AssistResponse.t)
          (self : Assistant),
     fst (assist_body (BuildRpc cap n (rs ++ [resp]) None) self) =
     fst (assist_body (BuildRpc cap n rs None) self)).
Proof.
  apply Z.eqb_neq in Hfo, Hclose. split.
  - intros self c. rewrite on_response_continue, Hfo, Hclose. reflexivity.
  - intros cap n rs self. rewrite !assist_body_outcome. simpl.
    unfold continuation_of, last_directive. rewrite map_app. simpl.
    rewrite last_error_filter_snoc. unfold is_directive.
    rewrite Hfo, Hclose. reflexivity.
Qed.

(** C10 at [follow-on, unspecified]: the turn returns true. *)
Lemma unspecified_mode_keeps_continuation_witness :
  microphone_mode_of (mode_event MICROPHONE_MODE_UNSPECIFIED)
    <> DIALOG_FOLLOW_ON /\
  microphone_mode_of (mode_event MICROPHONE_MODE_UNSPECIFIED)
    <> CLOSE_MICROPHONE /\
  fst (assist_body
         (BuildRpc [] 1
            ([mode_event DIALOG_FOLLOW_ON]
               ++ [mode_event MICROPHONE_MODE_UNSPECIFIED]) None)
         Sample.voice)
  = Returned true.
Proof.
  split; [discriminate|]. split; [discriminate|].
  rewrite (proj2 (@unspecified_mode_keeps_continuation
                    (mode_event MICROPHONE_MODE_UNSPECIFIED)
                    ltac:(discriminate) ltac:(discriminate))).
  reflexivity.
Defined.

End Continuation.

(** ** The outbound sequence *)

Section Outbound.

Import Py Grpc Proto AudioHelpers Tenacity Inbound.
Import AssistantPy.
Local Open Scope Z_scope.

Lemma configs_of_audio (chunks : list bytes) :
  configs_of (map audio_in chunks) = [].
Proof. induction chunks as [|d chunks IH]; [reflexivity|exact IH]. Qed.

Lemma configs_of_firstn_audio (k : nat) (chunks : list bytes) :
  configs_of (firstn k (map audio_in chunks)) = [].
Proof.
  revert k. induction chunks as [|d chunks IH]; intros [|k]; simpl; auto.
Qed.

Lemma filter_is_config_audio (chunks : list bytes) :
  filter is_config (map audio_in chunks) = [].
Proof. induction chunks as [|d chunks IH]; [reflexivity|exact IH]. Qed.

(** The stub and the flag after one run of the body are those that the
    outbound side left. *)
Lemma assist_body_frame (rpc : Rpc) (self : Assistant) :
  assistant (snd (assist_body rpc self)) =
    assistant (Assist_outbound rpc (on_stream start_recording self)) /\
  is_new_conversation (snd (assist_body rpc self)) =
    is_new_conversation (Assist_outbound rpc (on_stream start_recording self)).
Proof.
  unfold assist_body.
  destruct (fold_on_response_frame (responses rpc)
              (Assist_outbound rpc (on_stream start_recording self), false))
    as [Hnew Hstub].
  destruct (fold_left on_response (responses rpc)
              (Assist_outbound rpc (on_stream start_recording self), false))
    as [self' c'].
  simpl in Hnew, Hstub.
  destruct (error rpc); simpl; split; assumption.
Qed.

(** C2.  The request sequence of [gen_assist_requests] is one config
    followed by one audio request per captured chunk: exactly one element
    is a config, it is the first, and every later element is an audio
    request, which holds a chunk and no config.  A turn whose transport
    takes [k+1] requests sends that config and the first [k] audio
    requests. *)
Theorem gen_assist_requests_one_config_first :
  (forall (self : Assistant) (cap : list bytes),
     exists c : AssistConfig.t,
       snd (gen_assist_requests self cap) = Proto.config c :: map audio_in cap /\
       configs_of (snd (gen_assist_requests self cap)) = [c] /\
       List.length (filter is_config (snd (gen_assist_requests self cap)))
         = 1%nat /\
       forall r, In r (tl (snd (gen_assist_requests self cap))) ->
                 is_config r = false /\ exists data, r = audio_in data) /\
  (forall (cap : list bytes) (k : nat) (rs : list AssistResponse.t)
          (err : option PyException) (self : Assistant),
     EmbeddedAssistantStub.outbound
       (assistant (snd (assist_body (BuildRpc cap (S k) rs err) self))) =
     EmbeddedAssistantStub.outbound (assistant self) ++
       [Proto.config (build_config (on_stream start_recording self))
          :: firstn k (map audio_in cap)]).
Proof.
  split.
  - intros self cap. exists (build_config self). simpl.
    rewrite configs_of_audio, filter_is_config_audio.
    split; [reflexivity|]. split; [reflexivity|]. split; [reflexivity|].
    intros r Hin. apply in_map_iff in Hin. destruct Hin as [d [<- _]].
    split; [reflexivity|]. exists d. reflexivity.
  - intros cap k rs err self.
    destruct (assist_body_frame (BuildRpc cap (S k) rs err) self) as [-> _].
    reflexivity.
Qed.

End Outbound.

(** ** Effects of one inbound event *)

Section OneEvent.

Import Py Grpc Proto AudioHelpers Tenacity Inbound.
Local Open Scope Z_scope.

(** The volume of the stream after one event. *)
Lemma on_response_volume (self : AssistantPy.Assistant) (c : bool)
  (resp : AssistResponse.t) :
  volume_percentage
    (AssistantPy.conversation_stream
       (fst (AssistantPy.on_response (self, c) resp))) =
  if volume_percentage_of resp =? 0
  then volume_percentage (AssistantPy.conversation_stream self)
  else volume_percentage_of resp.
Proof.
  unfold AssistantPy.on_response, volume_percentage_of.
  destruct (DialogStateOut.volume_percentage
              (AssistResponse.dialog_state_out resp) =? 0); simpl;
    split_ifs; reflexivity.
Qed.

(** C6.  Processing an inbound event whose volume percentage is 0 leaves
    the volume of the audio stream as it was; processing one whose volume
    percentage is a nonzero [v] sets it to [v]: a value of 45 sets it to
    45. *)
Theorem volume_update_nonzero_only :
  forall (self : AssistantPy.Assistant) (c : bool) (resp : AssistResponse.t),
    let after :=
      volume_percentage
        (AssistantPy.conversation_stream
           (fst (AssistantPy.on_response (self, c) resp))) in
    (volume_percentage_of resp = 0 ->
     after = volume_percentage (AssistantPy.conversation_stream self)) /\
    (volume_percentage_of resp <> 0 -> after = volume_percentage_of resp) /\
    (volume_percentage_of resp = 45 -> after = 45).
Proof.
  intros self c resp after. subst after. rewrite on_response_volume.
  repeat split; intros H.
  - rewrite H. reflexivity.
  - apply Z.eqb_neq in H. rewrite H. reflexivity.
  - rewrite H. reflexivity.
Qed.

(** The stored conversation state of the text driver after one event. *)
Lemma text_on_response_conversation_state (self : TextInput.SampleTextAssistant)
  (text : option string) (html : option bytes) (resp : AssistResponse.t) :
  TextInput.conversation_state
    (fst (fst (TextInput.on_response (self, text, html) resp))) =
  if bool_bytes (conversation_state_of resp)
  then Some (conversation_state_of resp)
  else TextInput.conversation_state self.
Proof.
  unfold TextInput.on_response, conversation_state_of. split_ifs; reflexivity.
Qed.

(** C8.  In both drivers, processing one inbound event overwrites the
    stored conversation state with the bytes of the event when they are
    not empty, and leaves it as it was when they are empty; nothing else
    in the event has a say. *)
Theorem conversation_state_overwritten_when_nonempty :
  (forall (self : AssistantPy.Assistant) (c : bool) (resp : AssistResponse.t),
     AssistantPy.conversation_state
       (fst (AssistantPy.on_response (self, c) resp)) =
     match conversation_state_of resp with
     | [] => AssistantPy.conversation_state self
     | _ :: _ => Some (conversation_state_of resp)
     end) /\
  (forall (self : TextInput.SampleTextAssistant) (text : option string)
          (html : option bytes) (resp : AssistResponse.t),
     TextInput.conversation_state
       (fst (fst (TextInput.on_response (self, text, html) resp))) =
     match conversation_state_of resp with
     | [] => TextInput.conversation_state self
     | _ :: _ => Some (conversation_state_of resp)
     end).
Proof.
  split.
  - intros self c resp. rewrite on_response_conversation_state.
    destruct (conversation_state_of resp); reflexivity.
  - intros self text html resp. rewrite text_on_response_conversation_state.
    destruct (conversation_state_of resp); reflexivity.
Qed.

End OneEvent.

(** ** Playback *)

Section Playback.

Import Py Grpc Proto AudioHelpers Tenacity Inbound.
Import AssistantPy.
Local Open Scope Z_scope.

Lemma skipn_length_app (A : Type) (l m : list A) :
  skipn (List.length l) (l ++ m) = m.
Proof. induction l as [|x l IH]; [reflexivity|exact IH]. Qed.

(** The test [len(audio_data) > 0] is the truth value of the payload. *)
Lemma audio_bearing_length (resp : AssistResponse.t) :
  (0 <? List.length (AudioOut.audio_data (AssistResponse.audio_out resp)))%nat
  = audio_bearing resp.
Proof.
  unfold audio_bearing, audio_data_of.
  destruct (AudioOut.audio_data (AssistResponse.audio_out resp)); reflexivity.
Qed.

(** What an event without audio adds to the trace of the stream: a stop of
    the recording when it is an end of utterance, nothing otherwise. *)
Lemma on_response_calls_no_audio (st : Assistant * bool)
  (resp : AssistResponse.t) :
  audio_bearing resp = false ->
  calls (conversation_stream (fst (on_response st resp))) =
  calls (conversation_stream (fst st)) ++
    (if end_of_utterance resp then [StopRecording] else []).
Proof.
  intros Hno. destruct st as [self c]. unfold on_response.
  rewrite audio_bearing_length, Hno. unfold end_of_utterance.
  destruct (AssistResponse.event_type resp =? END_OF_UTTERANCE); simpl;
    split_ifs; simpl; rewrite ?app_nil_r; reflexivity.
Qed.

Lemma fold_on_response_calls_no_audio (rs : list AssistResponse.t)
  (st : Assistant * bool) :
  filter audio_bearing rs = [] ->
  calls (conversation_stream (fst (fold_left on_response rs st))) =
  calls (conversation_stream (fst st)) ++
    map (fun _ => StopRecording) (filter end_of_utterance rs).
Proof.
  revert st. induction rs as [|resp rs IH]; intros st Hno; simpl.
  - rewrite app_nil_r. reflexivity.
  - simpl in Hno. destruct (audio_bearing resp) eqn:Hresp; [discriminate|].
    rewrite (IH _ Hno), (on_response_calls_no_audio st resp Hresp).
    rewrite <- app_assoc.
    destruct (end_of_utterance resp); reflexivity.
Qed.

(** The outbound side does not touch the stream. *)
Lemma Assist_outbound_stream (rpc : Rpc) (self : Assistant) :
  conversation_stream (Assist_outbound rpc self) = conversation_stream self.
Proof. unfold Assist_outbound. destruct (pulled rpc); reflexivity. Qed.

(** The calls of a turn without audio-bearing events. *)
Lemma turn_calls_no_audio (rpc : Rpc) (self : Assistant) :
  filter audio_bearing (responses rpc) = [] ->
  turn_calls rpc self =
  StartRecording ::
    map (fun _ => StopRecording) (filter end_of_utterance (responses rpc)) ++
    match error rpc with
    | None => [StopPlayback]
    | Some _ => []
    end.
Proof.
  intros Hno. unfold turn_calls, assist_body.
  pose proof (fold_on_response_calls_no_audio (responses rpc)
                (Assist_outbound rpc (on_stream start_recording self), false)
                Hno) as Hcalls.
  destruct (fold_left on_response (responses rpc)
              (Assist_outbound rpc (on_stream start_recording self), false))
    as [self' c'].
  simpl in Hcalls. rewrite Assist_outbound_stream in Hcalls. simpl in Hcalls.
  destruct (error rpc); simpl; rewrite Hcalls.
  - rewrite <- app_assoc, skipn_length_app, app_nil_r. reflexivity.
  - rewrite <- !app_assoc, skipn_length_app. reflexivity.
Qed.

Lemma filter_stop_recording (p : Call -> bool) (A : Type) (l : list A) :
  p StopRecording = false ->
  filter p (map (fun _ => StopRecording) l) = [].
Proof.
  intros Hp. induction l as [|x l IH]; [reflexivity|].
  simpl. rewrite Hp. exact IH.
Qed.

(** C7, as the code has it.  In a turn whose inbound sequence has no
    audio-bearing event the driver never calls [start_playback]; it calls
    [stop_playback] once, as the last call of the turn, when the inbound
    sequence ends with the remote half-closing, and not at all when the
    turn ends with an exception.  The only other calls are the start of
    the recording and one stop of the recording per end of utterance. *)
Theorem zero_audio_turn_playback_calls (rpc : Rpc) (self : Assistant)
  (Hno : filter audio_bearing (responses rpc) = []) :
  turn_calls rpc self =
    StartRecording ::
      map (fun _ => StopRecording) (filter end_of_utterance (responses rpc)) ++
      match error rpc with
      | None => [StopPlayback]
      | Some _ => []
      end /\
  filter is_start_playback (turn_calls rpc self) = [] /\
  filter is_stop_playback (turn_calls rpc self) =
    match error rpc with
    | None => [StopPlayback]
    | Some _ => []
    end.
Proof.
  rewrite (turn_calls_no_audio rpc self Hno). split; [reflexivity|].
  simpl. rewrite !filter_app, !filter_stop_recording by reflexivity.
  destruct (error rpc); split; reflexivity.
Qed.

(** C7 at a turn with two events, neither audio-bearing, the first an end
    of utterance. *)
Lemma zero_audio_turn_playback_calls_witness :
  filter audio_bearing (responses Sample.silent) = [] /\
  turn_calls Sample.silent Sample.voice
  = [StartRecording; StopRecording; StopPlayback].
Proof.
  split; [reflexivity|].
  exact (proj1 (@zero_audio_turn_playback_calls Sample.silent Sample.voice
                  eq_refl)).
Defined.

(** C7 as stated fails: the turn with no inbound event at all, which has
    no audio-bearing event, calls [stop_playback]. *)
Lemma zero_audio_turn_stops_playback :
  ~ (filter audio_bearing (responses Sample.empty) = [] ->
     filter is_playback_call (turn_calls Sample.empty Sample.voice) = []).
Proof.
  intros H. specialize (H eq_refl). vm_compute in H. discriminate H.
Qed.

End Playback.

(** ** The text turn *)

Section TextTurn.

Import Py Grpc Proto Tenacity Inbound.
Import TextInput.
Local Open Scope Z_scope.

Lemma text_fold_snoc (rs : list AssistResponse.t) (resp : AssistResponse.t)
  (st : LoopState) :
  fold_left on_response (rs ++ [resp]) st =
  on_response (fold_left on_response rs st) resp.
Proof. rewrite fold_left_app. reflexivity. Qed.

(** The two collected values after a sequence of events. *)
Lemma text_fold_collected (rs : list AssistResponse.t)
  (self : SampleTextAssistant) (text : option string) (html : option bytes) :
  snd (fst (fold_left on_response rs (self, text, html))) =
    match last_display_text rs with
    | Some s => Some s
    | None => text
    end /\
  snd (fold_left on_response rs (self, text, html)) =
    match last_screen_data rs with
    | Some b => Some b
    | None => html
    end.
Proof.
  induction rs as [|resp rs IH] using rev_ind; [split; reflexivity|].
  rewrite text_fold_snoc.
  destruct (fold_left on_response rs (self, text, html))
    as [[self' text'] html'].
  simpl in IH. destruct IH as [-> ->].
  unfold last_display_text, last_screen_data. rewrite !map_app. simpl.
  rewrite !last_error_filter_snoc.
  unfold on_response, display_text_of, screen_data_of. simpl.
  split.
  - destruct (bool_str _); reflexivity.
  - destruct (bool_bytes (ScreenOut.data _)); reflexivity.
Qed.

(** The loop of the text driver does not read the microphone mode. *)
Lemma text_on_response_ignores_mode (st : LoopState) (mode : Z)
  (resp : AssistResponse.t) :
  on_response st (set_microphone_mode mode resp) = on_response st resp.
Proof. destruct st as [[self text] html]. reflexivity. Qed.

Lemma text_fold_ignores_mode (f : AssistResponse.t -> Z)
  (rs : list AssistResponse.t) (st : LoopState) :
  fold_left on_response (map (fun r => set_microphone_mode (f r) r) rs) st =
  fold_left on_response rs st.
Proof.
  revert st. induction rs as [|resp rs IH]; intros st; [reflexivity|].
  simpl. rewrite text_on_response_ignores_mode. apply IH.
Qed.

(** The loop of the text driver leaves the flag and the stub alone. *)
Lemma text_fold_frame (rs : list AssistResponse.t) (st : LoopState) :
  is_new_conversation (fst (fst (fold_left on_response rs st))) =
    is_new_conversation (fst (fst st)) /\
  assistant (fst (fst (fold_left on_response rs st))) =
    assistant (fst (fst st)).
Proof.
  revert st. induction rs as [|resp rs IH]; intros st; [split; reflexivity|].
  simpl. destruct (IH (on_response st resp)) as [-> ->].
  destruct st as [[self text] html]. unfold on_response. simpl.
  destruct (bool_bytes (DialogStateOut.conversation_state _));
    split; reflexivity.
Qed.

Lemma text_assist_frame (query : string) (rpc : Rpc)
  (self : SampleTextAssistant) :
  assistant (snd (assist query rpc self)) =
    assistant (Assist_outbound query rpc self) /\
  is_new_conversation (snd (assist query rpc self)) =
    is_new_conversation (Assist_outbound query rpc self).
Proof.
  unfold assist.
  destruct (text_fold_frame (responses rpc)
              (Assist_outbound query rpc self, None, None)) as [Hnew Hstub].
  destruct (fold_left on_response (responses rpc)
              (Assist_outbound query rpc self, None, None))
    as [[self' text'] html'].
  simpl in Hnew, Hstub. destruct (error rpc); simpl; split; assumption.
Qed.

(** C9.  The request generator of the text turn yields one request, a
    config whose input is the text query, and a turn whose transport takes
    requests sends exactly that one.  A turn whose inbound sequence ends
    with the remote half-closing returns the last non-empty supplemental
    display text and the last non-empty screen data of the sequence, each
    [None] when there was none.  The microphone modes of the events have
    no effect on the result or on the state left. *)
Theorem text_assist_config_only_and_last_values :
  (forall (query : string) (self : SampleTextAssistant),
     exists c : AssistConfig.t,
       snd (iter_assist_requests query self) = [Proto.config c] /\
       AssistConfig.type c = text_query query) /\
  (forall (query : string) (k : nat) (rs : list AssistResponse.t)
          (err : option PyException) (self : SampleTextAssistant),
     EmbeddedAssistantStub.outbound
       (assistant (snd (assist query (BuildRpc (S k) rs err) self))) =
     EmbeddedAssistantStub.outbound (assistant self) ++
       [snd (iter_assist_requests query self)]) /\
  (forall (query : string) (n : nat) (rs : list AssistResponse.t)
          (self : SampleTextAssistant),
     fst (assist query (BuildRpc n rs None) self) =
     Returned (last_display_text rs, last_screen_data rs)) /\
  (forall (query : string) (n : nat) (rs : list AssistResponse.t)
          (err : option PyException) (self : SampleTextAssistant)
          (f : AssistResponse.t -> Z),
     assist query
       (BuildRpc n (map (fun r => set_microphone_mode (f r) r) rs) err) self =
     assist query (BuildRpc n rs err) self).
Proof.
  split; [|split; [|split]].
  - intros query self. unfold iter_assist_requests. simpl.
    destruct (display self); eexists; split; reflexivity.
  - intros query k rs err self.
    destruct (text_assist_frame query (BuildRpc (S k) rs err) self) as [-> _].
    unfold Assist_outbound, iter_assist_requests. simpl.
    rewrite firstn_nil. reflexivity.
  - intros query n rs self. unfold assist. simpl.
    destruct (text_fold_collected rs
                (Assist_outbound query (BuildRpc n rs None) self) None None)
      as [Htext Hhtml].
    destruct (fold_left on_response rs
                (Assist_outbound query (BuildRpc n rs None) self, None, None))
      as [[self' text'] html'].
    simpl in Htext, Hhtml. subst text' html'.
    destruct (last_display_text rs), (last_screen_data rs); reflexivity.
  - intros query n rs err self f. unfold assist. simpl.
    unfold Assist_outbound. simpl.
    rewrite text_fold_ignores_mode. reflexivity.
Qed.

End TextTurn.

(** ** Retrying *)

Section Retry.

Import Py Grpc Proto AudioHelpers Tenacity Inbound.
Import AssistantPy.
Local Open Scope Z_scope.

(** One run of the body, split into its outcome and the state it leaves. *)
Lemma assist_body_split (rpc : Rpc) (self : Assistant) :
  assist_body rpc self =
  (match error rpc with
   | Some e => Raised e
   | None => Returned (continuation_of (responses rpc))
   end, snd (assist_body rpc self)).
Proof.
  rewrite <- (assist_body_outcome rpc self).
  destruct (assist_body rpc self); reflexivity.
Qed.

(** C3.  The decorated [assist] runs the body at least once and at most
    three times, one run after the other on the same instance; every run
    but the last raised an RPC error with status UNAVAILABLE; the result is
    the outcome of the last run as it is, value or exception; and a result
    that is an UNAVAILABLE error means that three runs were made.  So an
    exception of any other kind, RPC error or not, ends the call at the run
    that raised it.  In particular: such an exception in the first run is
    the result after that single run; two UNAVAILABLE failures followed by
    a run that returns give the value of the third run; three UNAVAILABLE
    failures give the third exception. *)
Theorem assist_retries_unavailable_up_to_three :
  (forall (script : nat -> Rpc) (self : Assistant),
     exists final self' attempts earlier,
       assist script self = Some (final, self', attempts) /\
       attempts = earlier ++ [final] /\
       (1 <= List.length attempts <= 3)%nat /\
       run_from (fun n => assist_body (script n)) (List.length attempts) 1 self
         = (self', attempts) /\
       Forall (fun o => exists details,
                   o = Raised (RpcError UNAVAILABLE details)) earlier /\
       (forall details, final = Raised (RpcError UNAVAILABLE details) ->
                        List.length attempts = 3%nat)) /\
  (forall (script : nat -> Rpc) (self : Assistant) (e : PyException),
     error (script 1%nat) = Some e ->
     is_grpc_error_unavailable e = false ->
     assist script self =
     Some (Raised e, snd (assist_body (script 1%nat) self), [Raised e])) /\
  (forall (script : nat -> Rpc) (self : Assistant) (d1 d2 : string),
     let s1 := snd (assist_body (script 1%nat) self) in
     let s2 := snd (assist_body (script 2%nat) s1) in
     let s3 := snd (assist_body (script 3%nat) s2) in
     error (script 1%nat) = Some (RpcError UNAVAILABLE d1) ->
     error (script 2%nat) = Some (RpcError UNAVAILABLE d2) ->
     (error (script 3%nat) = None ->
      assist script self =
      Some (Returned (continuation_of (responses (script 3%nat))), s3,
            [Raised (RpcError UNAVAILABLE d1);
             Raised (RpcError UNAVAILABLE d2);
             Returned (continuation_of (responses (script 3%nat)))])) /\
     (forall e3, error (script 3%nat) = Some e3 ->
      assist script self =
      Some (Raised e3, s3,
            [Raised (RpcError UNAVAILABLE d1);
             Raised (RpcError UNAVAILABLE d2);
             Raised e3]))).
Proof.
  split; [|split].
  - intros script self.
    destruct (assist_total script self) as (final & self' & attempts & H).
    destruct (assist_shape _ _ H)
      as (earlier & Heq & Hrun & Hall & Hlen & Hlast).
    exists final, self', attempts, earlier.
    assert (Hn : List.length attempts = S (List.length earlier)).
    { rewrite Heq, length_app. simpl. lia. }
    repeat split; auto; try lia.
    intros details Hf. destruct Hlast as [Hl|Hl]; [lia|].
    subst final. discriminate Hl.
  - intros script self e Herr Hpred. unfold assist, call. simpl.
    rewrite (assist_body_split (script 1%nat) self), Herr. simpl.
    rewrite Hpred. reflexivity.
  - intros script self d1 d2 s1 s2 s3 H1 H2. split.
    + intros H3. unfold assist, call. simpl.
      rewrite (assist_body_split (script 1%nat) self), H1. simpl.
      fold s1. rewrite (assist_body_split (script 2%nat) s1), H2. simpl.
      fold s2. rewrite (assist_body_split (script 3%nat) s2), H3. simpl.
      reflexivity.
    + intros e3 H3. unfold assist, call. simpl.
      rewrite (assist_body_split (script 1%nat) self), H1. simpl.
      fold s1. rewrite (assist_body_split (script 2%nat) s1), H2. simpl.
      fold s2. rewrite (assist_body_split (script 3%nat) s2), H3. simpl.
      destruct (is_grpc_error_unavailable e3); reflexivity.
Qed.

End Retry.

(** ** Conversation state across turns *)

Section RoundTrip.

Import Py Grpc Proto AudioHelpers Tenacity Inbound.
Import AssistantPy.
Local Open Scope Z_scope.

Lemma last_conversation_state_app (rs1 rs2 : list AssistResponse.t) :
  last_conversation_state (rs1 ++ rs2) =
  match last_conversation_state rs2 with
  | Some b => Some b
  | None => last_conversation_state rs1
  end.
Proof.
  unfold last_conversation_state.
  rewrite map_app, filter_app, last_error_app. reflexivity.
Qed.

(** The outbound side does not touch the stored conversation state. *)
Lemma Assist_outbound_conversation_state (rpc : Rpc) (self : Assistant) :
  conversation_state (Assist_outbound rpc self) = conversation_state self.
Proof. unfold Assist_outbound. destruct (pulled rpc); reflexivity. Qed.

(** The stored conversation state after one run of the body, however the
    run ends. *)
Lemma assist_body_conversation_state (rpc : Rpc) (self : Assistant) :
  conversation_state (snd (assist_body rpc self)) =
  match last_conversation_state (responses rpc) with
  | Some b => Some b
  | None => conversation_state self
  end.
Proof.
  unfold assist_body.
  pose proof (fold_on_response_conversation_state (responses rpc)
                (Assist_outbound rpc (on_stream start_recording self)) false)
    as Hcs.
  destruct (fold_left on_response (responses rpc)
              (Assist_outbound rpc (on_stream start_recording self), false))
    as [self' c'].
  simpl in Hcs. rewrite Assist_outbound_conversation_state in Hcs.
  simpl in Hcs. destruct (error rpc); exact Hcs.
Qed.

(** The stored conversation state after consecutive runs of the body. *)
Lemma run_from_conversation_state (script : nat -> Rpc) (k n : nat)
  (self : Assistant) :
  conversation_state
    (fst (run_from (fun i => assist_body (script i)) k n self)) =
  match last_conversation_state
          (flat_map (fun i => responses (script i)) (seq n k)) with
  | Some b => Some b
  | None => conversation_state self
  end.
Proof.
  revert n self. induction k as [|k IH]; intros n self; [reflexivity|].
  simpl. pose proof (assist_body_conversation_state (script n) self) as H1.
  destruct (assist_body (script n) self) as [o self1]. simpl in H1.
  specialize (IH (S n) self1).
  destruct (run_from (fun i => assist_body (script i)) k (S n) self1)
    as [self2 os].
  simpl in IH |- *. rewrite IH, H1, last_conversation_state_app.
  destruct (last_conversation_state
              (flat_map (fun i => responses (script i)) (seq (S n) k)));
    reflexivity.
Qed.

(** The stored conversation state after a decorated call. *)
Lemma assist_conversation_state (script : nat -> Rpc) (self self' : Assistant)
  (final : Outcome bool) (attempts : list (Outcome bool)) :
  assist script self = Some (final, self', attempts) ->
  conversation_state self' =
  match last_conversation_state (received script (List.length attempts)) with
  | Some b => Some b
  | None => conversation_state self
  end.
Proof.
  intros H. apply assist_shape in H as (earlier & _ & Hrun & _).
  pose proof (run_from_conversation_state script (List.length attempts) 1 self)
    as Hcs.
  rewrite Hrun in Hcs. exact Hcs.
Qed.

(** C4.  When the last non-empty conversation state that a turn receives
    is [b], the instance stores [b] when the turn ends, whether it returns
    or raises; the config that [gen_assist_requests] then builds on that
    instance carries [b] as its conversation state, and the next run of
    the body sends that config first. *)
Theorem conversation_state_round_trip
  (script : nat -> Rpc) (self self1 : Assistant) (final : Outcome bool)
  (attempts : list (Outcome bool)) (b : bytes)
  (Hturn : assist script self = Some (final, self1, attempts))
  (Hlast : last_conversation_state (received script (List.length attempts))
           = Some b) :
  conversation_state self1 = Some b /\
  (forall cap : list bytes,
     exists c : AssistConfig.t,
       snd (gen_assist_requests self1 cap) = Proto.config c :: map audio_in cap /\
       DialogStateIn.conversation_state (AssistConfig.dialog_state_in c)
         = Some b) /\
  (forall (cap : list bytes) (k : nat) (rs : list AssistResponse.t)
          (err : option PyException),
     exists c : AssistConfig.t,
       last_error
         (EmbeddedAssistantStub.outbound
            (assistant (snd (assist_body (BuildRpc cap (S k) rs err) self1))))
         = Some (Proto.config c :: firstn k (map audio_in cap)) /\
       DialogStateIn.conversation_state (AssistConfig.dialog_state_in c)
         = Some b).
Proof.
  pose proof (assist_conversation_state _ _ Hturn) as Hcs.
  rewrite Hlast in Hcs. split; [exact Hcs|]. split.
  - intros cap. exists (build_config self1). split; [reflexivity|].
    unfold build_config. destruct (display self1); exact Hcs.
  - intros cap k rs err.
    exists (build_config (on_stream start_recording self1)). split.
    + destruct (assist_body_frame (BuildRpc cap (S k) rs err) self1) as [-> _].
      simpl. apply last_error_snoc.
    + unfold build_config. simpl. destruct (display self1); exact Hcs.
Qed.

(** C4 at a turn whose first attempt receives a state and fails, and whose
    second attempt receives another state and returns: the second state is
    the one stored. *)
Lemma conversation_state_round_trip_witness :
  assist Sample.flaky Sample.voice =
    Some (Returned true,
          fst (run_from (fun n => assist_body (Sample.flaky n)) 2 1
                 Sample.voice),
          [Raised (RpcError UNAVAILABLE "connection refused");
           Returned true]) /\
  last_conversation_state (received Sample.flaky 2) = Some Sample.state2 /\
  conversation_state
    (fst (run_from (fun n => assist_body (Sample.flaky n)) 2 1 Sample.voice))
  = Some Sample.state2.
Proof.
  split; [reflexivity|]. split; [reflexivity|].
  exact (proj1 (@conversation_state_round_trip Sample.flaky Sample.voice
                  (fst (run_from (fun n => assist_body (Sample.flaky n)) 2 1
                          Sample.voice))
                  (Returned true)
                  [Raised (RpcError UNAVAILABLE "connection refused");
                   Returned true]
                  Sample.state2 eq_refl eq_refl)).
Defined.

End RoundTrip.

(** ** The new-conversation flag over a session *)

Section NewConversation.

Import Py Grpc Proto AudioHelpers Tenacity Inbound EmbeddedAssistantStub.
Local Open Scope Z_scope.





(** *** The voice driver *)

Section Voice.

Import AssistantPy.



(** Every run of the body appends one request sequence to the log. *)
Lemma voice_body_appends (rpc : Rpc) (self : Assistant) :
  exists reqs,
    outbound (assistant (snd (assist_body rpc self))) =
    outbound (assistant self) ++ [reqs].
Proof.
  destruct (assist_body_frame rpc self) as [-> _]. unfold Assist_outbound.
  destruct (pulled rpc); simpl; eauto.
Qed.


(** A property that every run of the body preserves is preserved by the
    decorated call and by a session. *)
Lemma assist_invariant (P : Assistant -> Prop) :
  (forall rpc self, P self -> P (snd (assist_body rpc self))) ->
  forall script self final self' attempts,
    assist script self = Some (final, self', attempts) -> P self -> P self'.
Proof.
  intros Hstep script self final self' attempts Hassist HP.
  unfold assist, call in Hassist. revert HP Hassist.
  apply (@retry_loop_invariant _ _ is_grpc_error_unavailable 3
           (fun n => assist_body (script n)) P).
  intros n st. apply Hstep.
Qed.

Lemma run_turns_invariant (P : Assistant -> Prop) :
  (forall rpc self, P self -> P (snd (assist_body rpc self))) ->
  forall scripts self outcomes self',
    run_turns scripts self = Some (outcomes, self') -> P self -> P self'.
Proof.
  intros Hstep. induction scripts as [|script rest IH];
    intros self outcomes self'; simpl.
  - intros H. injection H as _ <-. exact (fun H => H).
  - destruct (assist script self) as [[[o self1] attempts]|] eqn:Ha;
      [|discriminate].
    destruct (run_turns rest self1) as [[os self2]|] eqn:Hr; [|discriminate].
    intros H. injection H as _ <-. intros HP.
    eapply IH; [exact Hr|]. eapply assist_invariant; eassumption.
Qed.

(** A session of voice turns always gives a result. *)
Lemma run_turns_total (scripts : list (nat -> Rpc)) (self : Assistant) :
  exists outcomes self', run_turns scripts self = Some (outcomes, self').
Proof.
  revert self. induction scripts as [|script rest IH]; intros self; simpl.
  - eauto.
  - destruct (assist_total script self) as (o & self1 & attempts & ->).
    destruct (IH self1) as (os & self2 & ->). eauto.
Qed.


End Voice.

(** *** The text driver *)

Section Text.

Import TextInput.




End Text.


End NewConversation.

(** ** Concrete runs *)

Section Runs.

Import Py Grpc Proto AudioHelpers Tenacity Inbound EmbeddedAssistantStub.
Local Open Scope Z_scope.

(** A failed attempt followed by one that returns: two runs, the value of
    the second. *)
Example flaky_turn :
  option_map (fun r => (fst (fst r), snd r))
    (AssistantPy.assist Sample.flaky Sample.voice) =
  Some (Returned true,
        [Raised (RpcError UNAVAILABLE "connection refused"); Returned true]).
Proof. reflexivity. Qed.

(** Three UNAVAILABLE failures: three runs, the third exception. *)
Example down_turn :
  option_map (fun r => (fst (fst r), snd r))
    (AssistantPy.assist Sample.down Sample.voice) =
  Some (Raised (RpcError UNAVAILABLE "third"),
        [Raised (RpcError UNAVAILABLE "first");
         Raised (RpcError UNAVAILABLE "second");
         Raised (RpcError UNAVAILABLE "third")]).
Proof. reflexivity. Qed.

(** Another status, or another class of exception: one run. *)
Example expired_turn :
  option_map (fun r => (fst (fst r), snd r))
    (AssistantPy.assist Sample.expired Sample.voice) =
  Some (Raised (RpcError DEADLINE_EXCEEDED "deadline exceeded"),
        [Raised (RpcError DEADLINE_EXCEEDED "deadline exceeded")]).
Proof. reflexivity. Qed.

Example broken_turn :
  option_map (fun r => (fst (fst r), snd r))
    (AssistantPy.assist Sample.broken Sample.voice) =
  Some (Raised (OtherException "PortAudioError" "device unavailable"),
        [Raised (OtherException "PortAudioError" "device unavailable")]).
Proof. reflexivity. Qed.

(** The calls of a turn with audio: playback starts at the first chunk. *)
Example spoken_turn_calls :
  AssistantPy.turn_calls Sample.spoken Sample.voice =
  [StartRecording; StopRecording; StopRecording; StartPlayback;
   Write Sample.state1; Write Sample.state2; StopPlayback].
Proof. reflexivity. Qed.

(** What a turn sends: the config, then the chunks the transport took. *)
Example spoken_turn_outbound :
  map (map is_config)
    (outbound (AssistantPy.assistant
                 (snd (AssistantPy.assist_body Sample.spoken Sample.voice)))) =
  [[true; false; false]].
Proof. reflexivity. Qed.

(** The volume after a turn with an update to 45, and after one without. *)
Example silent_turn_volume :
  volume_percentage
    (AssistantPy.conversation_stream
       (snd (AssistantPy.assist_body Sample.silent Sample.voice))) = 45 /\
  volume_percentage
    (AssistantPy.conversation_stream
       (snd (AssistantPy.assist_body Sample.empty Sample.voice))) = 50.
Proof. split; reflexivity. Qed.

(** The flags sent over a session of three turns, the first retried. *)
Example session_flags :
  option_map
    (fun r => new_conversation_flags (AssistantPy.assistant (snd r)))
    (AssistantPy.run_turns
       [Sample.flaky; (fun _ => Sample.silent); (fun _ => Sample.spoken)]
       Sample.voice) =
  Some [true; false; false; false].
Proof. reflexivity. Qed.

(** A text turn: the last display text and the last screen payload. *)
Example reply_turn :
  fst (TextInput.assist "hello" Sample.reply Sample.text) =
    Returned (Some "two"%string, Some Sample.state1) /\
  TextInput.conversation_state
    (snd (TextInput.assist "hello" Sample.reply Sample.text)) =
    Some Sample.state2.
Proof. split; reflexivity. Qed.

(** The flags sent over a session of two text turns. *)
Example text_session_flags :
  new_conversation_flags
    (TextInput.assistant
       (snd (TextInput.run_turns
               [("hello"%string, Sample.reply); ("again"%string, Sample.reply)]
               Sample.text))) =
  [true; false].
Proof. reflexivity. Qed.

End Runs.

(** ** The calls of a turn, in general *)

Section TurnCalls.

Import Py Grpc Proto AudioHelpers Tenacity Inbound Turn.
Import AssistantPy.
Local Open Scope Z_scope.

(** What one event adds to the trace of the stream, and the playing flag it
    leaves. *)
Lemma on_response_calls (st : Assistant * bool) (resp : AssistResponse.t) :
  calls (conversation_stream (fst (on_response st resp))) =
    calls (conversation_stream (fst st)) ++
    event_calls (playing (conversation_stream (fst st))) resp /\
  playing (conversation_stream (fst (on_response st resp))) =
    playing (conversation_stream (fst st)) || audio_bearing resp.
Proof.
  destruct st as [self c]. unfold on_response, event_calls.
  rewrite audio_bearing_length. unfold end_of_utterance, audio_data_of.
  destruct (bool_bytes
              (DialogStateOut.conversation_state
                 (AssistResponse.dialog_state_out resp)));
    destruct (negb (DialogStateOut.volume_percentage
                      (AssistResponse.dialog_state_out resp) =? 0));
    destruct (AssistResponse.event_type resp =? END_OF_UTTERANCE);
    destruct (audio_bearing resp); simpl;
    destruct (playing (conversation_stream self)) eqn:Hp; simpl;
    rewrite ?Hp; simpl; rewrite <- ?app_assoc, ?app_nil_r;
    split; reflexivity.
Qed.

Lemma fold_on_response_calls (rs : list AssistResponse.t)
  (st : Assistant * bool) :
  calls (conversation_stream (fst (fold_left on_response rs st))) =
    calls (conversation_stream (fst st)) ++
    loop_calls (playing (conversation_stream (fst st))) rs /\
  playing (conversation_stream (fst (fold_left on_response rs st))) =
    playing (conversation_stream (fst st)) || existsb audio_bearing rs.
Proof.
  revert st. induction rs as [|resp rs IH]; intros st; simpl.
  - rewrite app_nil_r, orb_false_r. split; reflexivity.
  - destruct (IH (on_response st resp)) as [-> ->].
    destruct (on_response_calls st resp) as [-> ->].
    rewrite <- app_assoc, orb_assoc. split; reflexivity.
Qed.

(** The trace and the playing flag after one run of the body. *)
Lemma assist_body_calls (rpc : Rpc) (self : Assistant) :
  calls (conversation_stream (snd (assist_body rpc self))) =
    calls (conversation_stream self) ++
    StartRecording ::
      loop_calls (playing (conversation_stream self)) (responses rpc) ++
      match error rpc with
      | None => [StopPlayback]
      | Some _ => []
      end /\
  playing (conversation_stream (snd (assist_body rpc self))) =
    match error rpc with
    | None => false
    | Some _ => playing (conversation_stream self)
                || existsb audio_bearing (responses rpc)
    end.
Proof.
  unfold assist_body.
  pose proof (fold_on_response_calls (responses rpc)
                (Assist_outbound rpc (on_stream start_recording self), false))
    as [Hcalls Hplaying].
  destruct (fold_left on_response (responses rpc)
              (Assist_outbound rpc (on_stream start_recording self), false))
    as [self' c'].
  simpl in Hcalls, Hplaying.
  rewrite Assist_outbound_stream in Hcalls, Hplaying.
  simpl in Hcalls, Hplaying.
  destruct (error rpc); simpl; rewrite ?Hcalls, ?Hplaying.
  - rewrite app_nil_r, <- app_assoc. split; reflexivity.
  - rewrite <- !app_assoc. split; reflexivity.
Qed.

Lemma turn_calls_general (rpc : Rpc) (self : Assistant) :
  turn_calls rpc self =
  StartRecording ::
    loop_calls (playing (conversation_stream self)) (responses rpc) ++
    match error rpc with
    | None => [StopPlayback]
    | Some _ => []
    end.
Proof.
  unfold turn_calls. destruct (assist_body_calls rpc self) as [-> _].
  apply skipn_length_app.
Qed.

Lemma filter_write_loop_calls (p : bool) (rs : list AssistResponse.t) :
  filter is_write (loop_calls p rs) =
  map Write (filter bool_bytes (map audio_data_of rs)).
Proof.
  revert p. induction rs as [|resp rs IH]; intros p; [reflexivity|].
  simpl. rewrite filter_app, IH. unfold event_calls, audio_bearing.
  destruct (end_of_utterance resp), (bool_bytes (audio_data_of resp)), p;
    reflexivity.
Qed.

Lemma filter_start_playback_loop_calls (p : bool)
  (rs : list AssistResponse.t) :
  filter is_start_playback (loop_calls p rs) =
  if negb p && existsb audio_bearing rs then [StartPlayback] else [].
Proof.
  revert p. induction rs as [|resp rs IH]; intros p; simpl.
  - rewrite andb_false_r. reflexivity.
  - rewrite filter_app, IH. unfold event_calls.
    destruct (end_of_utterance resp), (audio_bearing resp), p; simpl;
      try reflexivity; destruct (existsb audio_bearing rs); reflexivity.
Qed.

Lemma filter_stop_recording_loop_calls (p : bool)
  (rs : list AssistResponse.t) :
  List.length (filter is_stop_recording (loop_calls p rs)) =
  (List.length (filter end_of_utterance rs) +
   if negb p && existsb audio_bearing rs then 1 else 0)%nat.
Proof.
  revert p. induction rs as [|resp rs IH]; intros p; simpl.
  - rewrite andb_false_r. reflexivity.
  - rewrite filter_app, length_app, IH. unfold event_calls.
    destruct (end_of_utterance resp), (audio_bearing resp), p; simpl;
      try lia; destruct (existsb audio_bearing rs); simpl; lia.
Qed.

Lemma filter_other_loop_calls (q : Call -> bool) (p : bool)
  (rs : list AssistResponse.t) :
  q StopRecording = false -> q StartPlayback = false ->
  (forall buf, q (Write buf) = false) ->
  filter q (loop_calls p rs) = [].
Proof.
  intros H1 H2 H3. revert p. induction rs as [|resp rs IH]; intros p;
    [reflexivity|].
  simpl. rewrite filter_app, IH, app_nil_r. unfold event_calls.
  destruct (end_of_utterance resp), (audio_bearing resp), p; simpl;
    rewrite ?H1, ?H2, ?H3; reflexivity.
Qed.

End TurnCalls.

(** ** Recording, playback and writes of a turn *)

Section TurnEffects.

Import Py Grpc Proto AudioHelpers Tenacity Inbound Turn.
Import AssistantPy.
Local Open Scope Z_scope.

(** X1.  The buffers that one run of the body writes to the stream are the
    non-empty audio payloads of its inbound events, each written once, in
    the order received. *)
Theorem turn_writes_audio_in_order (rpc : Rpc) (self : Assistant) :
  filter is_write (turn_calls rpc self) =
  map Write (filter bool_bytes (map audio_data_of (responses rpc))).
Proof.
  rewrite turn_calls_general. simpl. rewrite filter_app, filter_write_loop_calls.
  destruct (error rpc); simpl; rewrite app_nil_r; reflexivity.
Qed.

(** X2.  One run of the body starts the recording once, as its first call.
    It starts the playback once when the stream is not playing at the
    start and some event bears audio, and never otherwise.  It stops the
    recording once per end of utterance, and once more when it starts the
    playback. *)
Theorem turn_starts_playback_at_most_once (rpc : Rpc) (self : Assistant) :
  hd_error (turn_calls rpc self) = Some StartRecording /\
  filter is_start_recording (turn_calls rpc self) = [StartRecording] /\
  filter is_start_playback (turn_calls rpc self) =
    (if negb (playing (conversation_stream self))
        && existsb audio_bearing (responses rpc)
     then [StartPlayback] else []) /\
  List.length (filter is_stop_recording (turn_calls rpc self)) =
    (List.length (filter end_of_utterance (responses rpc)) +
     if negb (playing (conversation_stream self))
        && existsb audio_bearing (responses rpc)
     then 1 else 0)%nat.
Proof.
  rewrite turn_calls_general. simpl.
  rewrite !filter_app, length_app, filter_start_playback_loop_calls,
    filter_stop_recording_loop_calls.
  rewrite (@filter_other_loop_calls is_start_recording)
    by (intros; reflexivity).
  destruct (error rpc); simpl; rewrite ?app_nil_r, ?Nat.add_0_r;
    repeat split; reflexivity.
Qed.

(** X3.  A run of the body that returns calls [stop_playback] once, as its
    last call, and leaves the stream not playing.  A run that raises never
    calls it: the stream is left playing if it was playing or if some
    event bore audio. *)
Theorem turn_stops_playback_only_on_return (rpc : Rpc) (self : Assistant) :
  filter is_stop_playback (turn_calls rpc self) =
    match error rpc with
    | None => [StopPlayback]
    | Some _ => []
    end /\
  (error rpc = None ->
   last_error (turn_calls rpc self) = Some StopPlayback) /\
  playing (conversation_stream (snd (assist_body rpc self))) =
    match error rpc with
    | None => false
    | Some _ => playing (conversation_stream self)
                || existsb audio_bearing (responses rpc)
    end.
Proof.
  rewrite turn_calls_general. destruct (assist_body_calls rpc self) as [_ ->].
  split; [|split; [|reflexivity]].
  - simpl. rewrite filter_app.
    rewrite (@filter_other_loop_calls is_stop_playback)
      by (intros; reflexivity).
    destruct (error rpc); reflexivity.
  - intros ->. rewrite app_comm_cons. apply last_error_snoc.
Qed.

(** The number of starts of the recording and of request sequences sent
    after consecutive runs of the body. *)
Lemma run_from_counts (script : nat -> Rpc) (k n : nat) (self : Assistant) :
  let self' := fst (run_from (fun i => assist_body (script i)) k n self) in
  List.length
    (filter is_start_recording (calls (conversation_stream self'))) =
    (List.length
       (filter is_start_recording (calls (conversation_stream self))) + k)%nat
  /\
  List.length (EmbeddedAssistantStub.outbound (assistant self')) =
    (List.length (EmbeddedAssistantStub.outbound (assistant self)) + k)%nat.
Proof.
  revert n self. induction k as [|k IH]; intros n self; simpl.
  - rewrite !Nat.add_0_r. split; reflexivity.
  - pose proof (assist_body_calls (script n) self) as [Hcalls _].
    pose proof (voice_body_appends (script n) self) as [reqs Hout].
    destruct (assist_body (script n) self) as [o self1].
    simpl in Hcalls, Hout. specialize (IH (S n) self1).
    destruct (run_from (fun i => assist_body (script i)) k (S n) self1)
      as [self2 os].
    simpl in IH |- *. destruct IH as [-> ->].
    rewrite Hcalls, Hout, filter_app, !length_app. simpl.
    rewrite filter_app, (@filter_other_loop_calls is_start_recording)
      by (intros; reflexivity).
    destruct (error (script n)); simpl; split; lia.
Qed.

(** X4.  The decorated [assist] starts the recording once and opens one
    [Assist] call per attempt: a call that made [k] attempts has started
    the recording [k] times and has sent [k] request sequences. *)
Theorem assist_records_and_sends_per_attempt
  (script : nat -> Rpc) (self : Assistant) :
  exists final self' attempts,
    assist script self = Some (final, self', attempts) /\
    List.length
      (filter is_start_recording (calls (conversation_stream self'))) =
      (List.length
         (filter is_start_recording (calls (conversation_stream self)))
       + List.length attempts)%nat /\
    List.length (EmbeddedAssistantStub.outbound (assistant self')) =
      (List.length (EmbeddedAssistantStub.outbound (assistant self))
       + List.length attempts)%nat.
Proof.
  destruct (assist_total script self) as (final & self' & attempts & H).
  exists final, self', attempts. split; [exact H|].
  apply assist_shape in H as (earlier & _ & Hrun & _).
  pose proof (run_from_counts script (List.length attempts) 1 self) as Hc.
  rewrite Hrun in Hc. exact Hc.
Qed.

End TurnEffects.

(** ** Volume across turns *)

Section VolumeRoundTrip.

Import Py Grpc Proto AudioHelpers Tenacity Inbound Turn.
Import AssistantPy.
Local Open Scope Z_scope.

Lemma last_volume_app (rs1 rs2 : list AssistResponse.t) :
  last_volume (rs1 ++ rs2) =
  match last_volume rs2 with
  | Some v => Some v
  | None => last_volume rs1
  end.
Proof.
  unfold last_volume. rewrite map_app, filter_app, last_error_app.
  reflexivity.
Qed.

(** The volume of the stream after a sequence of events. *)
Lemma fold_on_response_volume (rs : list AssistResponse.t)
  (self : Assistant) (c : bool) :
  volume_percentage
    (conversation_stream (fst (fold_left on_response rs (self, c)))) =
  match last_volume rs with
  | Some v => v
  | None => volume_percentage (conversation_stream self)
  end.
Proof.
  induction rs as [|resp rs IH] using rev_ind; [reflexivity|].
  rewrite fold_on_response_snoc.
  destruct (fold_left on_response rs (self, c)) as [self' c'].
  rewrite on_response_volume. simpl in IH. rewrite IH.
  unfold last_volume. rewrite map_app. simpl.
  rewrite last_error_filter_snoc.
  destruct (volume_percentage_of resp =? 0); reflexivity.
Qed.

(** The volume of the stream after one run of the body. *)
Lemma assist_body_volume (rpc : Rpc) (self : Assistant) :
  volume_percentage (conversation_stream (snd (assist_body rpc self))) =
  match last_volume (responses rpc) with
  | Some v => v
  | None => volume_percentage (conversation_stream self)
  end.
Proof.
  unfold assist_body.
  pose proof (fold_on_response_volume (responses rpc)
                (Assist_outbound rpc (on_stream start_recording self)) false)
    as Hv.
  destruct (fold_left on_response (responses rpc)
              (Assist_outbound rpc (on_stream start_recording self), false))
    as [self' c'].
  simpl in Hv. rewrite Assist_outbound_stream in Hv. simpl in Hv.
  destruct (error rpc); exact Hv.
Qed.

Lemma run_from_volume (script : nat -> Rpc) (k n : nat) (self : Assistant) :
  volume_percentage
    (conversation_stream
       (fst (run_from (fun i => assist_body (script i)) k n self))) =
  match last_volume (flat_map (fun i => responses (script i)) (seq n k)) with
  | Some v => v
  | None => volume_percentage (conversation_stream self)
  end.
Proof.
  revert n self. induction k as [|k IH]; intros n self; [reflexivity|].
  simpl. pose proof (assist_body_volume (script n) self) as H1.
  destruct (assist_body (script n) self) as [o self1]. simpl in H1.
  specialize (IH (S n) self1).
  destruct (run_from (fun i => assist_body (script i)) k (S n) self1)
    as [self2 os].
  simpl in IH |- *. rewrite IH, H1, last_volume_app.
  destruct (last_volume
              (flat_map (fun i => responses (script i)) (seq (S n) k)));
    reflexivity.
Qed.

(** X5.  After a decorated call the volume of the stream is the last
    nonzero volume percentage received over its attempts, or the volume
    before the call when none was received; the config that
    [gen_assist_requests] builds next asks for the audio output at that
    volume. *)
Theorem volume_round_trip (script : nat -> Rpc) (self : Assistant) :
  exists final self1 attempts,
    assist script self = Some (final, self1, attempts) /\
    volume_percentage (conversation_stream self1) =
      match last_volume (received script (List.length attempts)) with
      | Some v => v
      | None => volume_percentage (conversation_stream self)
      end /\
    forall cap : list bytes,
      exists c : AssistConfig.t,
        snd (gen_assist_requests self1 cap)
          = Proto.config c :: map audio_in cap /\
        AudioOutConfig.volume_percentage (AssistConfig.audio_out_config c)
          = volume_percentage (conversation_stream self1).
Proof.
  destruct (assist_total script self) as (final & self1 & attempts & H).
  exists final, self1, attempts. split; [exact H|]. split.
  - apply assist_shape in H as (earlier & _ & Hrun & _).
    pose proof (run_from_volume script (List.length attempts) 1 self) as Hv.
    rewrite Hrun in Hv. exact Hv.
  - intros cap. exists (build_config self1). split; [reflexivity|].
    unfold build_config. destruct (display self1); reflexivity.
Qed.

End VolumeRoundTrip.

(** ** What a retry sends *)

Section RetrySends.

Import Py Grpc Proto AudioHelpers Tenacity Inbound Turn.
Import AssistantPy.
Local Open Scope Z_scope.

(** After a first attempt that raised UNAVAILABLE the decorated call makes
    a second attempt, and at most a third, on the state of the first. *)
Lemma assist_after_unavailable (script : nat -> Rpc) (self : Assistant)
  (details : string) :
  error (script 1%nat) = Some (RpcError UNAVAILABLE details) ->
  let s1 := snd (assist_body (script 1%nat) self) in
  let s2 := snd (assist_body (script 2%nat) s1) in
  let s3 := snd (assist_body (script 3%nat) s2) in
  exists final self' attempts,
    assist script self = Some (final, self', attempts) /\
    (2 <= List.length attempts)%nat /\
    (self' = s2 \/ self' = s3).
Proof.
  intros H1 s1 s2 s3. unfold assist, call. simpl.
  rewrite (assist_body_split (script 1%nat) self), H1. simpl. fold s1.
  rewrite (assist_body_split (script 2%nat) s1). fold s2.
  destruct (error (script 2%nat)) as [e2|]; simpl.
  - destruct (is_grpc_error_unavailable e2); simpl.
    + rewrite (assist_body_split (script 3%nat) s2). fold s3.
      destruct (error (script 3%nat)) as [e3|]; simpl.
      * destruct (is_grpc_error_unavailable e3); simpl;
          do 3 eexists; (split; [reflexivity|]); simpl; split; auto; lia.
      * do 3 eexists. split; [reflexivity|]. simpl. split; auto; lia.
    + do 3 eexists. split; [reflexivity|]. simpl. split; auto; lia.
  - do 3 eexists. split; [reflexivity|]. simpl. split; auto; lia.
Qed.

Lemma nth_error_after_two (A : Type) (l m : list A) (x1 x2 : A) :
  nth_error (l ++ x1 :: x2 :: m) (S (List.length l)) = Some x2.
Proof. induction l as [|y l IH]; [reflexivity|exact IH]. Qed.

(** X6.  A retry runs on the instance as the failed attempt left it.  When
    the first attempt of a decorated call received the conversation state
    [b] as its last non-empty one and then raised UNAVAILABLE, the config
    that opens the request sequence of the second attempt carries [b];
    and it carries is_new_conversation = false when the first attempt had
    sent its config. *)
Theorem retry_sends_state_of_failed_attempt
  (script : nat -> Rpc) (self : Assistant) (details : string) (b : bytes)
  (k : nat)
  (Hfail : error (script 1%nat) = Some (RpcError UNAVAILABLE details))
  (Hstate : last_conversation_state (responses (script 1%nat)) = Some b)
  (Hpull : pulled (script 2%nat) = S k) :
  exists final self' attempts c,
    assist script self = Some (final, self', attempts) /\
    (2 <= List.length attempts)%nat /\
    nth_error (EmbeddedAssistantStub.outbound (assistant self'))
      (S (List.length (EmbeddedAssistantStub.outbound (assistant self))))
      = Some (Proto.config c
                :: firstn k (map audio_in (captured (script 2%nat)))) /\
    DialogStateIn.conversation_state (AssistConfig.dialog_state_in c)
      = Some b /\
    (pulled (script 1%nat) <> 0%nat -> is_new c = false).
Proof.
  destruct (assist_after_unavailable script self Hfail)
    as (final & self' & attempts & Hassist & Hlen & Hself).
  set (s1 := snd (assist_body (script 1%nat) self)) in *.
  set (s2 := snd (assist_body (script 2%nat) s1)) in *.
  set (s3 := snd (assist_body (script 3%nat) s2)) in *.
  set (c := build_config (on_stream start_recording s1)).
  exists final, self', attempts, c.
  split; [exact Hassist|]. split; [exact Hlen|].
  destruct (voice_body_appends (script 1%nat) self) as [x1 Hout1].
  fold s1 in Hout1.
  assert (Hout2 : EmbeddedAssistantStub.outbound (assistant s2) =
                  EmbeddedAssistantStub.outbound (assistant s1) ++
                  [Proto.config c
                     :: firstn k (map audio_in (captured (script 2%nat)))]).
  { subst s2. destruct (assist_body_frame (script 2%nat) s1) as [-> _].
    unfold Assist_outbound. rewrite Hpull. reflexivity. }
  split; [|split].
  - destruct Hself as [-> | ->].
    + rewrite Hout2, Hout1, <- app_assoc. simpl.
      apply nth_error_after_two.
    + destruct (voice_body_appends (script 3%nat) s2) as [x3 Hout3].
      fold s3 in Hout3. rewrite Hout3, Hout2, Hout1, <- !app_assoc. simpl.
      apply nth_error_after_two.
  - subst c. unfold build_config. simpl.
    pose proof (assist_body_conversation_state (script 1%nat) self) as Hcs.
    fold s1 in Hcs. rewrite Hstate in Hcs.
    destruct (display s1); exact Hcs.
  - intros Hsent. subst c. unfold is_new, build_config. simpl.
    assert (Hnew : is_new_conversation s1 = false).
    { subst s1. destruct (assist_body_frame (script 1%nat) self) as [_ ->].
      unfold Assist_outbound.
      destruct (pulled (script 1%nat)); [congruence|reflexivity]. }
    destruct (display s1); exact Hnew.
Qed.

(** X6 at the sample turn whose first attempt receives [state1] and
    fails. *)
Lemma retry_sends_state_of_failed_attempt_witness :
  error (Sample.flaky 1%nat)
    = Some (RpcError UNAVAILABLE "connection refused") /\
  last_conversation_state (responses (Sample.flaky 1%nat))
    = Some Sample.state1 /\
  pulled (Sample.flaky 2%nat) = 2%nat /\
  exists final self' attempts c,
    assist Sample.flaky Sample.voice = Some (final, self', attempts) /\
    (2 <= List.length attempts)%nat /\
    nth_error (EmbeddedAssistantStub.outbound (assistant self'))
      (S (List.length
            (EmbeddedAssistantStub.outbound (assistant Sample.voice))))
      = Some (Proto.config c
                :: firstn 1 (map audio_in (captured (Sample.flaky 2%nat)))) /\
    DialogStateIn.conversation_state (AssistConfig.dialog_state_in c)
      = Some Sample.state1 /\
    (pulled (Sample.flaky 1%nat) <> 0%nat -> is_new c = false).
Proof.
  split; [reflexivity|]. split; [reflexivity|]. split; [reflexivity|].
  exact (@retry_sends_state_of_failed_attempt Sample.flaky Sample.voice
           "connection refused" Sample.state1 1 eq_refl eq_refl eq_refl).
Defined.

End RetrySends.

(** ** What every config of a session carries *)

Section SessionIdentity.

Import Py Grpc Proto AudioHelpers Tenacity Inbound EmbeddedAssistantStub.
Import Identity.
Local Open Scope Z_scope.

Lemma sent_configs_send (reqs : list AssistRequest)
  (stub : EmbeddedAssistantStub.t) :
  sent_configs (send reqs stub) = sent_configs stub ++ configs_of reqs.
Proof.
  unfold sent_configs, send. simpl.
  rewrite flat_map_app. simpl. rewrite app_nil_r. reflexivity.
Qed.

(** *** The voice driver *)

(** The loop changes neither the identity of the driver nor the sample
    rate of the stream. *)
Lemma on_response_identity (st : AssistantPy.Assistant * bool)
  (resp : AssistResponse.t) :
  AssistantPy.device_id (fst (AssistantPy.on_response st resp))
    = AssistantPy.device_id (fst st) /\
  AssistantPy.device_model_id (fst (AssistantPy.on_response st resp))
    = AssistantPy.device_model_id (fst st) /\
  AssistantPy.language_code (fst (AssistantPy.on_response st resp))
    = AssistantPy.language_code (fst st) /\
  AssistantPy.display (fst (AssistantPy.on_response st resp))
    = AssistantPy.display (fst st) /\
  sample_rate
    (AssistantPy.conversation_stream (fst (AssistantPy.on_response st resp)))
    = sample_rate (AssistantPy.conversation_stream (fst st)).
Proof.
  destruct st as [self c]. unfold AssistantPy.on_response.
  split_ifs; repeat split; reflexivity.
Qed.

Lemma fold_on_response_identity (rs : list AssistResponse.t)
  (st : AssistantPy.Assistant * bool) :
  AssistantPy.device_id (fst (fold_left AssistantPy.on_response rs st))
    = AssistantPy.device_id (fst st) /\
  AssistantPy.device_model_id (fst (fold_left AssistantPy.on_response rs st))
    = AssistantPy.device_model_id (fst st) /\
  AssistantPy.language_code (fst (fold_left AssistantPy.on_response rs st))
    = AssistantPy.language_code (fst st) /\
  AssistantPy.display (fst (fold_left AssistantPy.on_response rs st))
    = AssistantPy.display (fst st) /\
  sample_rate
    (AssistantPy.conversation_stream
       (fst (fold_left AssistantPy.on_response rs st)))
    = sample_rate (AssistantPy.conversation_stream (fst st)).
Proof.
  revert st. induction rs as [|resp rs IH]; intros st;
    [repeat split; reflexivity|].
  simpl. destruct (IH (AssistantPy.on_response st resp))
    as (-> & -> & -> & -> & ->).
  apply on_response_identity.
Qed.

Lemma voice_body_identity (d : string) (rate : Z) (rpc : AssistantPy.Rpc)
  (self : AssistantPy.Assistant) :
  voice_driver d rate self ->
  voice_driver d rate (snd (AssistantPy.assist_body rpc self)).
Proof.
  intros (Hd & Hm & Hl & Hdisp & Hrate & Hsent). unfold voice_driver.
  destruct (assist_body_frame rpc self) as [-> _].
  unfold AssistantPy.assist_body.
  pose proof (fold_on_response_identity (AssistantPy.responses rpc)
                (AssistantPy.Assist_outbound rpc
                   (AssistantPy.on_stream start_recording self), false))
    as (H1 & H2 & H3 & H4 & H5).
  destruct (fold_left AssistantPy.on_response (AssistantPy.responses rpc)
              (AssistantPy.Assist_outbound rpc
                 (AssistantPy.on_stream start_recording self), false))
    as [self' c'].
  simpl in H1, H2, H3, H4, H5.
  assert (Hfields :
            AssistantPy.device_id self' = d /\
            AssistantPy.device_model_id self' = AssistantPy.DEVICE_MODEL_ID /\
            AssistantPy.language_code self' = AssistantPy.LANGUAGE_CODE /\
            AssistantPy.display self' = false /\
            sample_rate (AssistantPy.conversation_stream self') = rate).
  { rewrite H1, H2, H3, H4, H5. unfold AssistantPy.Assist_outbound.
    destruct (AssistantPy.pulled rpc); simpl; repeat split; assumption. }
  destruct Hfields as (F1 & F2 & F3 & F4 & F5).
  assert (Hconfigs :
            Forall (voice_config d rate)
              (sent_configs
                 (AssistantPy.assistant
                    (AssistantPy.Assist_outbound rpc
                       (AssistantPy.on_stream start_recording self))))).
  { unfold AssistantPy.Assist_outbound.
    destruct (AssistantPy.pulled rpc) as [|k]; simpl;
      rewrite sent_configs_send; apply Forall_app; split; try exact Hsent.
    - constructor.
    - simpl. rewrite configs_of_firstn_audio. constructor; [|constructor].
      unfold voice_config, AssistantPy.build_config. simpl.
      rewrite Hdisp, Hd, Hm, Hl, Hrate. repeat split; reflexivity. }
  destruct (AssistantPy.error rpc); simpl; repeat split; assumption.
Qed.

(** X7.  Over any session of voice turns on a fresh instance, every config
    sent names the device given at construction with the fixed model id,
    asks for the fixed language, declares LINEAR16 audio at the sample rate
    of the stream in both directions, and asks for no screen output. *)
Theorem voice_session_configs_keep_identity
  (device_id : string) (stream : ConversationStream)
  (scripts : list (nat -> AssistantPy.Rpc)) :
  exists outcomes self',
    AssistantPy.run_turns scripts (AssistantPy.__init__ device_id stream)
      = Some (outcomes, self') /\
    Forall (voice_config device_id (sample_rate stream))
      (sent_configs (AssistantPy.assistant self')).
Proof.
  destruct (run_turns_total scripts (AssistantPy.__init__ device_id stream))
    as (outcomes & self' & H).
  exists outcomes, self'. split; [exact H|].
  assert (Hinv : voice_driver device_id (sample_rate stream) self').
  { eapply run_turns_invariant;
      [exact (@voice_body_identity device_id (sample_rate stream))
      | exact H |].
    unfold voice_driver. simpl. repeat split; constructor. }
  apply Hinv.
Qed.

(** *** The text driver *)

Lemma text_fold_identity (rs : list AssistResponse.t)
  (st : TextInput.LoopState) :
  TextInput.language_code (fst (fst (fold_left TextInput.on_response rs st)))
    = TextInput.language_code (fst (fst st)) /\
  TextInput.device_model_id
    (fst (fst (fold_left TextInput.on_response rs st)))
    = TextInput.device_model_id (fst (fst st)) /\
  TextInput.device_id (fst (fst (fold_left TextInput.on_response rs st)))
    = TextInput.device_id (fst (fst st)) /\
  TextInput.display (fst (fst (fold_left TextInput.on_response rs st)))
    = TextInput.display (fst (fst st)).
Proof.
  revert st. induction rs as [|resp rs IH]; intros st;
    [repeat split; reflexivity|].
  simpl. destruct (IH (TextInput.on_response st resp)) as (-> & -> & -> & ->).
  destruct st as [[self text] html]. unfold TextInput.on_response. simpl.
  destruct (bool_bytes (DialogStateOut.conversation_state _));
    repeat split; reflexivity.
Qed.

Lemma text_assist_identity (lc dm di : string) (display : bool)
  (queries : list string) (query : string) (rpc : TextInput.Rpc)
  (self : TextInput.SampleTextAssistant) :
  In query queries ->
  text_driver lc dm di display queries self ->
  text_driver lc dm di display queries
    (snd (TextInput.assist query rpc self)).
Proof.
  intros Hin (Hl & Hm & Hd & Hdisp & Hsent). unfold text_driver.
  destruct (text_assist_frame query rpc self) as [-> _].
  unfold TextInput.assist.
  pose proof (text_fold_identity (TextInput.responses rpc)
                (TextInput.Assist_outbound query rpc self, None, None))
    as (H1 & H2 & H3 & H4).
  destruct (fold_left TextInput.on_response (TextInput.responses rpc)
              (TextInput.Assist_outbound query rpc self, None, None))
    as [[self' text'] html'].
  simpl in H1, H2, H3, H4.
  assert (Hfields :
            TextInput.language_code self' = lc /\
            TextInput.device_model_id self' = dm /\
            TextInput.device_id self' = di /\
            TextInput.display self' = display).
  { rewrite H1, H2, H3, H4. unfold TextInput.Assist_outbound.
    destruct (TextInput.pulled rpc); simpl; repeat split; assumption. }
  destruct Hfields as (F1 & F2 & F3 & F4).
  assert (Hconfigs :
            Forall (text_config lc dm di display queries)
              (sent_configs
                 (TextInput.assistant
                    (TextInput.Assist_outbound query rpc self)))).
  { unfold TextInput.Assist_outbound.
    destruct (TextInput.pulled rpc) as [|k]; simpl;
      rewrite sent_configs_send; apply Forall_app; split; try exact Hsent.
    - constructor.
    - rewrite firstn_nil. rewrite Hdisp.
      destruct display; simpl; (constructor; [|constructor]);
        unfold text_config; simpl; rewrite Hl, Hm, Hd;
        repeat split; try reflexivity; exists query; split;
        [exact Hin|reflexivity|exact Hin|reflexivity]. }
  destruct (TextInput.error rpc); simpl; repeat split; assumption.
Qed.

Lemma text_run_turns_identity (lc dm di : string) (display : bool)
  (queries : list string) (turns : list (string * TextInput.Rpc))
  (self : TextInput.SampleTextAssistant) :
  incl (map fst turns) queries ->
  text_driver lc dm di display queries self ->
  text_driver lc dm di display queries (snd (TextInput.run_turns turns self)).
Proof.
  revert self. induction turns as [|[query rpc] rest IH]; intros self Hincl H;
    [exact H|].
  simpl. pose proof (@text_assist_identity lc dm di display queries query rpc
                       self (Hincl query (or_introl eq_refl)) H) as H1.
  destruct (TextInput.assist query rpc self) as [o self1]. simpl in H1.
  specialize (IH self1 (fun q Hq => Hincl q (or_intror Hq)) H1).
  destruct (TextInput.run_turns rest self1) as [os self2]. exact IH.
Qed.

(** X8.  Over any session of text turns on a fresh instance, every config
    sent names the device, the model and the language given at
    construction, carries the query of one of the turns as its input,
    declares LINEAR16 audio output at 16000 Hz with volume 0, and asks for
    the screen in PLAYING mode exactly when the instance was built with a
    display. *)
Theorem text_session_configs_keep_identity
  (language_code device_model_id device_id : string) (display : bool)
  (deadline_sec : Z) (turns : list (string * TextInput.Rpc)) :
  Forall (text_config language_code device_model_id device_id display
            (map fst turns))
    (sent_configs
       (TextInput.assistant
          (snd (TextInput.run_turns turns
                  (TextInput.__init__ language_code device_model_id device_id
                     display deadline_sec))))).
Proof.
  apply (@text_run_turns_identity language_code device_model_id device_id
           display (map fst turns) turns).
  - apply incl_refl.
  - unfold text_driver. simpl. repeat split; constructor.
Qed.

End SessionIdentity.

(** ** The text driver across turns *)

Section TextSession.

Import Py Grpc Proto Tenacity Inbound.
Import TextInput.
Local Open Scope Z_scope.

(** The outcome of a text turn. *)
Lemma text_assist_outcome (query : string) (rpc : Rpc)
  (self : SampleTextAssistant) :
  fst (assist query rpc self) =
  match error rpc with
  | Some e => Raised e
  | None =>
      Returned (last_display_text (responses rpc),
                last_screen_data (responses rpc))
  end.
Proof.
  unfold assist.
  destruct (text_fold_collected (responses rpc)
              (Assist_outbound query rpc self) None None) as [Htext Hhtml].
  destruct (fold_left on_response (responses rpc)
              (Assist_outbound query rpc self, None, None))
    as [[self' text'] html'].
  simpl in Htext, Hhtml. subst text' html'.
  destruct (error rpc); [reflexivity|].
  destruct (last_display_text (responses rpc)),
    (last_screen_data (responses rpc)); reflexivity.
Qed.

(** The stored conversation state after a sequence of events. *)
Lemma text_fold_conversation_state (rs : list AssistResponse.t)
  (self : SampleTextAssistant) (text : option string) (html : option bytes) :
  conversation_state (fst (fst (fold_left on_response rs (self, text, html))))
  = match last_conversation_state rs with
    | Some b => Some b
    | None => conversation_state self
    end.
Proof.
  induction rs as [|resp rs IH] using rev_ind; [reflexivity|].
  rewrite text_fold_snoc.
  destruct (fold_left on_response rs (self, text, html))
    as [[self' text'] html'].
  rewrite text_on_response_conversation_state. simpl in IH. rewrite IH.
  unfold last_conversation_state. rewrite map_app. simpl.
  rewrite last_error_filter_snoc.
  destruct (bool_bytes (conversation_state_of resp)); reflexivity.
Qed.

(** X9.  After a text turn, whether it returned or raised, the instance
    stores the last non-empty conversation state the turn received, or
    what it stored before when the turn received none; the config of the
    next turn carries that state. *)
Theorem text_conversation_state_round_trip
  (query : string) (rpc : Rpc) (self : SampleTextAssistant) :
  conversation_state (snd (assist query rpc self)) =
    match last_conversation_state (responses rpc) with
    | Some b => Some b
    | None => conversation_state self
    end /\
  forall next : string,
    exists c : AssistConfig.t,
      snd (iter_assist_requests next (snd (assist query rpc self)))
        = [Proto.config c] /\
      DialogStateIn.conversation_state (AssistConfig.dialog_state_in c)
        = conversation_state (snd (assist query rpc self)).
Proof.
  split.
  - unfold assist.
    pose proof (text_fold_conversation_state (responses rpc)
                  (Assist_outbound query rpc self) None None) as Hcs.
    destruct (fold_left on_response (responses rpc)
                (Assist_outbound query rpc self, None, None))
      as [[self' text'] html'].
    simpl in Hcs.
    assert (Hout : conversation_state (Assist_outbound query rpc self)
                   = conversation_state self).
    { unfold Assist_outbound. destruct (pulled rpc); reflexivity. }
    rewrite Hout in Hcs. destruct (error rpc); exact Hcs.
  - intros next. unfold iter_assist_requests. simpl.
    destruct (display (snd (assist query rpc self)));
      eexists; split; reflexivity.
Qed.

End TextSession.

(** ** [main] of the text driver *)

Section TextMainFacts.

Import Py Grpc Proto Tenacity Inbound.
Import TextInput TextMain.
Local Open Scope Z_scope.

Lemma last_error_filter_true (A : Type) (p : A -> bool) (l : list A) (x : A) :
  last_error (filter p l) = Some x -> p x = true.
Proof.
  induction l as [|y l IH] using rev_ind; [discriminate|].
  rewrite last_error_filter_snoc. destruct (p y) eqn:Hy.
  - intros H. injection H as <-. exact Hy.
  - exact IH.
Qed.

(** The truth tests of [main] never drop a value that [assist] returned:
    a returned text or payload is not empty. *)
Lemma echo_response_last (rs : list AssistResponse.t) :
  echo_response (last_display_text rs, last_screen_data rs) =
  (match last_display_text rs with
   | Some text => [Line ("<@assistant> " ++ text)]
   | None => []
   end) ++
  (match last_screen_data rs with
   | Some html => [Raw html]
   | None => []
   end).
Proof.
  unfold echo_response.
  destruct (last_display_text rs) as [text|] eqn:Ht;
    destruct (last_screen_data rs) as [html|] eqn:Hh;
    try (apply last_error_filter_true in Ht; rewrite Ht);
    try (apply last_error_filter_true in Hh; rewrite Hh);
    reflexivity.
Qed.

(** One round of the loop. *)
Lemma text_main_loop_cons (query : string) (rpc : Rpc)
  (rest : list (string * Rpc)) (self : SampleTextAssistant)
  (out : list Echo) :
  main_loop ((query, rpc) :: rest) self out =
  match assist query rpc self with
  | (Raised e, self') =>
      {| raised := e;
         driver := self';
         echoed := out ++ [Line ("<you> " ++ query)] |}
  | (Returned response, self') =>
      main_loop rest self'
        ((out ++ [Line ("<you> " ++ query)]) ++ echo_response response)
  end.
Proof. reflexivity. Qed.

(** The loop over a run of turns that all return. *)
Lemma text_main_loop_clean (clean rest : list (string * Rpc))
  (self : SampleTextAssistant) (out : list Echo) :
  Forall (fun turn => error (snd turn) = None) clean ->
  main_loop (clean ++ rest) self out =
  main_loop rest (snd (run_turns clean self))
    (out ++ flat_map (fun turn => turn_echo (fst turn) (responses (snd turn)))
              clean).
Proof.
  intros Hclean. revert self out.
  induction Hclean as [|[query rpc] clean Hrpc Hclean IH]; intros self out.
  - simpl. rewrite app_nil_r. reflexivity.
  - cbn [snd] in Hrpc. cbn [app]. rewrite text_main_loop_cons.
    cbn [run_turns flat_map fst snd].
    pose proof (text_assist_outcome query rpc self) as Ho.
    rewrite Hrpc in Ho.
    destruct (assist query rpc self) as [o self1]. cbn [fst] in Ho. subst o.
    rewrite IH. destruct (run_turns clean self1) as [os self2]. cbn [snd].
    rewrite echo_response_last. unfold turn_echo.
    cbn [app]. rewrite <- !app_assoc. reflexivity.
Qed.

(** X10.  The text [main] echoes, for every turn that returns, the query
    and then the last non-empty display text and the last non-empty screen
    data that the turn received, when there are any.  After a run of such
    turns it leaves the driver as the turns left it; it ends with
    [Abort] when the input ends, and with the exception of the first turn
    that raises, after echoing only the query of that turn. *)
Theorem text_main_transcript (device_id : string)
  (clean : list (string * Rpc))
  (Hclean : Forall (fun turn => error (snd turn) = None) clean) :
  let self := TextInput.__init__ LANGUAGE_CODE DEVICE_MODEL_ID device_id false
                DEFAULT_GRPC_DEADLINE in
  let transcript :=
    flat_map (fun turn => turn_echo (fst turn) (responses (snd turn))) clean in
  main device_id clean =
    {| raised := Abort;
       driver := snd (run_turns clean self);
       echoed := transcript |} /\
  forall (query : string) (rpc : Rpc) (e : PyException)
         (rest : list (string * Rpc)),
    error rpc = Some e ->
    main device_id (clean ++ (query, rpc) :: rest) =
      {| raised := e;
         driver := snd (assist query rpc (snd (run_turns clean self)));
         echoed := transcript ++ [Line ("<you> " ++ query)] |}.
Proof.
  intros self transcript. split.
  - unfold main. fold self.
    rewrite <- (app_nil_r clean) at 1.
    rewrite (text_main_loop_clean [] self [] Hclean). reflexivity.
  - intros query rpc e rest He. unfold main. fold self.
    rewrite (text_main_loop_clean ((query, rpc) :: rest) self [] Hclean).
    rewrite text_main_loop_cons.
    pose proof (text_assist_outcome query rpc (snd (run_turns clean self)))
      as Ho.
    rewrite He in Ho.
    destruct (assist query rpc (snd (run_turns clean self))) as [o self1].
    cbn [fst] in Ho. subst o. reflexivity.
Qed.

(** X10 at a session of one turn that returns, followed by one that
    fails. *)
Lemma text_main_transcript_witness :
  Forall (fun turn => error (snd turn) = None)
    [("hello"%string, Sample.reply)] /\
  echoed (main "device-1" [("hello"%string, Sample.reply)]) =
    [Line "<you> hello"; Line "<@assistant> two"; Raw Sample.state1] /\
  raised (main "device-1" [("hello"%string, Sample.reply)]) = Abort /\
  echoed (main "device-1"
            ([("hello"%string, Sample.reply)]
               ++ [("again"%string, Session.lost)])) =
    [Line "<you> hello"; Line "<@assistant> two"; Raw Sample.state1;
     Line "<you> again"].
Proof.
  assert (Hclean : Forall (fun turn => error (snd turn) = None)
                     [("hello"%string, Sample.reply)]).
  { constructor; [reflexivity|constructor]. }
  split; [exact Hclean|].
  pose proof (@text_main_transcript "device-1" _ Hclean) as [H1 H2].
  split; [rewrite H1; reflexivity|].
  split; [rewrite H1; reflexivity|].
  rewrite (H2 "again"%string Session.lost
             (RpcError UNAVAILABLE "connection reset") [] eq_refl).
  reflexivity.
Defined.

End TextMainFacts.

(** ** Retrying functions that differ only in the value returned *)

Section RetryingAlike.

Import Grpc Tenacity Turn.

Variables St Res : Type.
Variable predicate : PyException -> bool.
Variable max_attempt_number : nat.
Variables fn fn' : nat -> St -> Outcome Res * St.

(** The two functions leave the same state, and raise the same exception
    or both return. *)
Hypothesis alike :
  forall n st,
    snd (fn n st) = snd (fn' n st) /\
    exception_of (fst (fn n st)) = exception_of (fst (fn' n st)).

Lemma retry_if_exception_alike (o o' : Outcome Res) :
  exception_of o = exception_of o' ->
  retry_if_exception predicate o = retry_if_exception predicate o'.
Proof.
  destruct o, o'; simpl; try discriminate; try reflexivity.
  intros H. injection H as ->. reflexivity.
Qed.

Lemma reraise_alike (o o' : Outcome Res) :
  exception_of o = exception_of o' ->
  exception_of (reraise o) = exception_of (reraise o').
Proof. destruct o, o'; simpl; try discriminate; auto. Qed.

(** The retry loops then end in the same state, with the same exception
    or both with a value. *)
Lemma retry_loop_alike (fuel n : nat) (st : St) :
  option_map (fun r => (exception_of (fst (fst r)), snd (fst r)))
    (retry_loop predicate max_attempt_number fn fuel n st) =
  option_map (fun r => (exception_of (fst (fst r)), snd (fst r)))
    (retry_loop predicate max_attempt_number fn' fuel n st).
Proof.
  revert n st. induction fuel as [|fuel IH]; intros n st; [reflexivity|].
  simpl. destruct (alike n st) as [Hst Hex].
  destruct (fn n st) as [o st1], (fn' n st) as [o' st1'].
  simpl in Hst, Hex. subst st1'.
  rewrite (retry_if_exception_alike _ _ Hex).
  destruct (retry_if_exception predicate o'); simpl.
  - destruct (stop_after_attempt max_attempt_number n); simpl.
    + rewrite (reraise_alike _ _ Hex). reflexivity.
    + specialize (IH (S n) st1).
      destruct (retry_loop predicate max_attempt_number fn fuel (S n) st1)
        as [[[f1 s1] a1]|];
        destruct (retry_loop predicate max_attempt_number fn' fuel (S n) st1)
        as [[[f2 s2] a2]|]; simpl in IH |- *; congruence.
  - rewrite Hex. reflexivity.
Qed.

End RetryingAlike.

(** ** [main] of the voice driver *)

Section VoiceMainFacts.

Import Py Grpc Proto AudioHelpers Tenacity Inbound Turn.
Import AssistantPy AssistantMain.
Local Open Scope Z_scope.

(** The loop reads the microphone mode only to set the flag: the state it
    leaves does not depend on the modes nor on the flag. *)
Lemma on_response_remode (self : Assistant) (c c' : bool) (mode : Z)
  (resp : AssistResponse.t) :
  fst (on_response (self, c) (set_microphone_mode mode resp)) =
  fst (on_response (self, c') resp).
Proof. reflexivity. Qed.

Lemma fold_on_response_remode (f : AssistResponse.t -> Z)
  (rs : list AssistResponse.t) (self : Assistant) (c c' : bool) :
  fst (fold_left on_response
         (map (fun r => set_microphone_mode (f r) r) rs) (self, c)) =
  fst (fold_left on_response rs (self, c')).
Proof.
  revert self c c'. induction rs as [|resp rs IH]; intros self c c';
    [reflexivity|].
  cbn [map fold_left].
  rewrite (surjective_pairing
             (on_response (self, c) (set_microphone_mode (f resp) resp))).
  rewrite (surjective_pairing (on_response (self, c') resp)).
  rewrite (on_response_remode self c c' (f resp) resp). apply IH.
Qed.

Lemma assist_body_remode (f : AssistResponse.t -> Z) (rpc : Rpc)
  (self : Assistant) :
  snd (assist_body (remode f rpc) self) = snd (assist_body rpc self) /\
  exception_of (fst (assist_body (remode f rpc) self)) =
  exception_of (fst (assist_body rpc self)).
Proof.
  rewrite !assist_body_outcome. split.
  - unfold assist_body.
    pose proof (fold_on_response_remode f (responses rpc)
                  (Assist_outbound rpc (on_stream start_recording self))
                  false false) as Hfold.
    change (Assist_outbound (remode f rpc)) with (Assist_outbound rpc).
    change (responses (remode f rpc))
      with (map (fun r => set_microphone_mode (f r) r) (responses rpc)).
    change (error (remode f rpc)) with (error rpc).
    destruct (fold_left on_response
                (map (fun r => set_microphone_mode (f r) r) (responses rpc))
                (Assist_outbound rpc (on_stream start_recording self), false))
      as [s1 c1].
    destruct (fold_left on_response (responses rpc)
                (Assist_outbound rpc (on_stream start_recording self), false))
      as [s2 c2].
    simpl in Hfold. subst s2. destruct (error rpc); reflexivity.
  - change (error (remode f rpc)) with (error rpc).
    destruct (error rpc); reflexivity.
Qed.

Lemma assist_remode (f : AssistResponse.t -> Z) (script : nat -> Rpc)
  (self : Assistant) :
  option_map (fun r => (exception_of (fst (fst r)), snd (fst r)))
    (assist (fun n => remode f (script n)) self) =
  option_map (fun r => (exception_of (fst (fst r)), snd (fst r)))
    (assist script self).
Proof.
  unfold assist, call. apply retry_loop_alike.
  intros n st. apply assist_body_remode.
Qed.

Lemma main_loop_remode (f : AssistResponse.t -> Z) (held turn : nat)
  (scripts : nat -> nat -> Rpc) (self : Assistant) (out : list string) :
  main_loop held turn (fun t n => remode f (scripts t n)) self out =
  main_loop held turn scripts self out.
Proof.
  revert turn self out. induction held as [|held IH]; intros turn self out;
    [reflexivity|].
  cbn [main_loop]. pose proof (assist_remode f (scripts turn) self) as H.
  destruct (assist (fun n => remode f (scripts turn n)) self)
    as [[[o1 s1] a1]|];
    destruct (assist (scripts turn) self) as [[[o2 s2] a2]|];
    simpl in H; try discriminate; [|reflexivity].
  injection H as Hex Hst. subst s2.
  destruct o1, o2; simpl in Hex; try discriminate.
  - apply IH.
  - injection Hex as ->. reflexivity.
Qed.

(** X11.  The voice [main] drops the value that [assist] returns: whether
    another turn is run depends on the button alone.  With the microphone
    mode of every inbound event replaced by any other value, which changes
    only the values returned, [main] prints the same lines and ends with
    the same exception, the same driver and the same closing of the
    stream. *)
Theorem main_ignores_continuation (f : AssistResponse.t -> Z)
  (device_id : string) (stream : ConversationStream) (held : nat)
  (scripts : nat -> nat -> Rpc) :
  main device_id stream held (fun t n => remode f (scripts t n)) =
  main device_id stream held scripts.
Proof. unfold main. rewrite main_loop_remode. reflexivity. Qed.

(** A turn whose first attempt ends with the remote half-closing returns
    after that attempt. *)
Lemma assist_clean (script : nat -> Rpc) (self : Assistant) :
  error (script 1%nat) = None ->
  assist script self =
  Some (Returned (continuation_of (responses (script 1%nat))),
        snd (assist_body (script 1%nat) self),
        [Returned (continuation_of (responses (script 1%nat)))]).
Proof.
  intros H. unfold assist, call. cbn [retry_loop].
  rewrite (assist_body_split (script 1%nat) self), H. reflexivity.
Qed.

(** A turn whose first attempt raises an exception that is not retried
    raises it after that attempt. *)
Lemma assist_failed (script : nat -> Rpc) (self : Assistant)
  (e : PyException) :
  error (script 1%nat) = Some e -> is_grpc_error_unavailable e = false ->
  assist script self =
  Some (Raised e, snd (assist_body (script 1%nat) self), [Raised e]).
Proof.
  intros H Hpred. unfold assist, call. cbn [retry_loop].
  rewrite (assist_body_split (script 1%nat) self), H.
  cbn [retry_if_exception negb]. rewrite Hpred. reflexivity.
Qed.

(** The loop over [k] turns that return at their first attempt. *)
Lemma main_loop_clean (k h turn : nat) (scripts : nat -> nat -> Rpc)
  (self : Assistant) (out : list string) :
  (forall i, (i < k)%nat -> error (scripts (turn + i)%nat 1%nat) = None) ->
  exists outcomes self_k,
    run_turns (map scripts (seq turn k)) self = Some (outcomes, self_k) /\
    main_loop (k + h) turn scripts self out =
    main_loop h (turn + k) scripts self_k (out ++ turn_lines k).
Proof.
  revert turn self out. induction k as [|k IH]; intros turn self out Hclean.
  - exists [], self. split; [reflexivity|].
    cbn [turn_lines Nat.add]. rewrite app_nil_r, Nat.add_0_r. reflexivity.
  - assert (H0 : error (scripts turn 1%nat) = None).
    { rewrite <- (Nat.add_0_r turn). apply Hclean. lia. }
    destruct (IH (S turn) (snd (assist_body (scripts turn 1%nat) self))
                ((out ++ ["Running assist"%string])
                   ++ ["Done with assist"%string]))
      as (outcomes & self_k & Hrun & Hloop).
    { intros i Hi. replace (S turn + i)%nat with (turn + S i)%nat by lia.
      apply Hclean. lia. }
    exists (Returned (continuation_of (responses (scripts turn 1%nat)))
              :: outcomes), self_k.
    split.
    + cbn [seq map run_turns]. rewrite (assist_clean _ self H0), Hrun.
      reflexivity.
    + cbn [Nat.add main_loop]. rewrite (assist_clean _ self H0), Hloop.
      replace (S turn + k)%nat with (turn + S k)%nat by lia.
      cbn [turn_lines]. rewrite <- !app_assoc. reflexivity.
Qed.

(** X12.  The voice [main] runs one turn per reading of the button that
    is true.  When the first [k] turns return at their first attempt:
    if the button is released after them, [main] ends without exception,
    closes the stream, and has printed the two lines of every turn; if the
    next turn raises, at its first attempt, an exception that is not
    retried, [main] ends with that exception, does not close the stream,
    and has not printed the second line of that turn.  In both cases the
    driver is the one that the same turns leave. *)
Theorem main_runs_until_release_or_failure
  (device_id : string) (stream : ConversationStream) (held k : nat)
  (scripts : nat -> nat -> Rpc)
  (Hclean : forall t, (t < k)%nat -> error (scripts t 1%nat) = None) :
  exists outcomes self_k,
    run_turns (map scripts (seq 0 k)) (AssistantPy.__init__ device_id stream)
      = Some (outcomes, self_k) /\
    (held = k ->
     main device_id stream held scripts =
     Some {| raised := None;
             driver := self_k;
             printed := ["Waiting for trigger..."; "Triggered!"]%string
                          ++ turn_lines k;
             closed := true |}) /\
    (forall e, (k < held)%nat ->
       error (scripts k 1%nat) = Some e ->
       is_grpc_error_unavailable e = false ->
       main device_id stream held scripts =
       Some {| raised := Some e;
               driver := snd (assist_body (scripts k 1%nat) self_k);
               printed := ["Waiting for trigger..."; "Triggered!"]%string
                            ++ turn_lines k ++ ["Running assist"%string];
               closed := false |}).
Proof.
  destruct (@main_loop_clean k (held - k) 0 scripts
              (AssistantPy.__init__ device_id stream)
              ["Waiting for trigger..."; "Triggered!"]%string)
    as (outcomes & self_k & Hrun & Hloop).
  { intros i Hi. apply Hclean. exact Hi. }
  exists outcomes, self_k. split; [exact Hrun|]. split.
  - intros ->. unfold main. cbn [app].
    rewrite Nat.sub_diag, Nat.add_0_r in Hloop. rewrite Hloop.
    reflexivity.
  - intros e Hlt He Hpred. unfold main. cbn [app].
    replace held with (k + (held - k))%nat at 1 by lia. rewrite Hloop.
    destruct (held - k)%nat as [|h] eqn:Hh; [lia|].
    cbn [main_loop Nat.add]. rewrite (assist_failed _ self_k He Hpred).
    cbn [__exit__]. rewrite <- !app_assoc. reflexivity.
Qed.

(** X12 at two silent turns, and at two silent turns followed by one that
    fails. *)
Lemma main_runs_until_release_or_failure_witness :
  (forall t, (t < 2)%nat -> error (Session.quiet t 1%nat) = None) /\
  (forall t, (t < 2)%nat -> error (Session.failing t 1%nat) = None) /\
  option_map (fun r => (raised r, printed r, closed r))
    (main "device-1" Sample.stream 2 Session.quiet) =
    Some (None,
          ["Waiting for trigger..."; "Triggered!";
           "Running assist"; "Done with assist";
           "Running assist"; "Done with assist"]%string,
          true) /\
  option_map (fun r => (raised r, printed r, closed r))
    (main "device-1" Sample.stream 5 Session.failing) =
    Some (Some (RpcError DEADLINE_EXCEEDED "deadline exceeded"),
          ["Waiting for trigger..."; "Triggered!";
           "Running assist"; "Done with assist";
           "Running assist"; "Done with assist";
           "Running assist"]%string,
          false).
Proof.
  assert (Hq : forall t, (t < 2)%nat -> error (Session.quiet t 1%nat) = None).
  { intros t _. reflexivity. }
  assert (Hf : forall t, (t < 2)%nat ->
                         error (Session.failing t 1%nat) = None).
  { intros [|[|t]] Ht; [reflexivity|reflexivity|lia]. }
  split; [exact Hq|]. split; [exact Hf|]. split.
  - destruct (@main_runs_until_release_or_failure "device-1" Sample.stream
                2 2 Session.quiet Hq) as (outcomes & self_k & _ & H & _).
    rewrite (H eq_refl). reflexivity.
  - destruct (@main_runs_until_release_or_failure "device-1" Sample.stream
                5 2 Session.failing Hf) as (outcomes & self_k & _ & _ & H).
    rewrite (H (RpcError DEADLINE_EXCEEDED "deadline exceeded")
               ltac:(lia) eq_refl eq_refl).
    reflexivity.
Defined.

End VoiceMainFacts.

(** ** The order of the calls around the start of the playback *)

Section PlaybackOrder.

Import Py Grpc Proto AudioHelpers Tenacity Inbound Turn.
Import AssistantPy.
Local Open Scope Z_scope.

(** The calls of the loop on a stream that is not playing, up to the first
    audio: stops of the recording only, then the stop of the recording, the
    start of the playback and the write of the first payload. *)
Lemma loop_calls_first_audio (rs : list AssistResponse.t) :
  existsb audio_bearing rs = true ->
  exists stops data rest,
    loop_calls false rs =
      stops ++ StopRecording :: StartPlayback :: Write data :: rest /\
    Forall (eq StopRecording) stops /\
    filter is_start_playback rest = [] /\
    hd_error (filter bool_bytes (map audio_data_of rs)) = Some data.
Proof.
  induction rs as [|resp rs IH]; [discriminate|].
  cbn [existsb loop_calls map filter]. unfold event_calls.
  fold (audio_bearing resp).
  destruct (audio_bearing resp) eqn:Haudio; cbn [orb].
  - intros _.
    exists (if end_of_utterance resp then [StopRecording] else []),
      (audio_data_of resp), (loop_calls true rs).
    repeat split.
    + rewrite <- !app_assoc. reflexivity.
    + destruct (end_of_utterance resp); repeat constructor.
    + rewrite filter_start_playback_loop_calls. reflexivity.
  - intros Hex. destruct (IH Hex) as (stops & data & rest & -> & Hs & Hr & Hd).
    exists ((if end_of_utterance resp then [StopRecording] else []) ++ stops),
      data, rest.
    repeat split.
    + rewrite app_nil_r, <- app_assoc. reflexivity.
    + apply Forall_app. split; [|exact Hs].
      destruct (end_of_utterance resp); repeat constructor.
    + exact Hr.
    + exact Hd.
Qed.

(** X13.  On a stream that is not playing, a run of the body that receives
    audio makes its calls in this order: the start of the recording; stops
    of the recording only; then the stop of the recording, the start of the
    playback and the write of the first non-empty payload, one right after
    the other; and no further start of the playback. *)
Theorem playback_starts_after_recording_stops
  (rpc : Rpc) (self : Assistant)
  (Hidle : playing (conversation_stream self) = false)
  (Haudio : existsb audio_bearing (responses rpc) = true) :
  exists stops data rest,
    turn_calls rpc self =
      StartRecording ::
        stops ++ StopRecording :: StartPlayback :: Write data :: rest /\
    Forall (eq StopRecording) stops /\
    filter is_start_playback rest = [] /\
    hd_error (filter bool_bytes (map audio_data_of (responses rpc)))
      = Some data.
Proof.
  rewrite turn_calls_general, Hidle.
  destruct (loop_calls_first_audio _ Haudio)
    as (stops & data & rest & -> & Hs & Hr & Hd).
  exists stops, data,
    (rest ++ match error rpc with
             | None => [StopPlayback]
             | Some _ => []
             end).
  repeat split; try assumption.
  - rewrite <- app_assoc. reflexivity.
  - rewrite filter_app, Hr. destruct (error rpc); reflexivity.
Qed.

(** X13 at the sample turn that answers with two chunks of audio. *)
Lemma playback_starts_after_recording_stops_witness :
  playing (conversation_stream Sample.voice) = false /\
  existsb audio_bearing (responses Sample.spoken) = true /\
  exists stops data rest,
    turn_calls Sample.spoken Sample.voice =
      StartRecording ::
        stops ++ StopRecording :: StartPlayback :: Write data :: rest /\
    Forall (eq StopRecording) stops /\
    filter is_start_playback rest = [] /\
    hd_error (filter bool_bytes (map audio_data_of (responses Sample.spoken)))
      = Some data.
Proof.
  split; [reflexivity|]. split; [reflexivity|].
  exact (@playback_starts_after_recording_stops Sample.spoken Sample.voice
           eq_refl eq_refl).
Defined.

(** X14.  A run of the body that raises after it received audio leaves the
    stream playing, since [stop_playback] is skipped; the next run on that
    instance, a retry or a later turn, then never starts the playback and
    stops the recording only at an end of utterance, while it still writes
    every payload it receives. *)
Theorem failed_turn_leaves_stream_playing
  (rpc next : Rpc) (self : Assistant) (e : PyException)
  (Hfail : error rpc = Some e)
  (Haudio : existsb audio_bearing (responses rpc) = true) :
  let self1 := snd (assist_body rpc self) in
  playing (conversation_stream self1) = true /\
  filter is_start_playback (turn_calls next self1) = [] /\
  List.length (filter is_stop_recording (turn_calls next self1)) =
    List.length (filter end_of_utterance (responses next)) /\
  filter is_write (turn_calls next self1) =
    map Write (filter bool_bytes (map audio_data_of (responses next))).
Proof.
  intros self1.
  assert (Hplaying : playing (conversation_stream self1) = true).
  { subst self1. destruct (assist_body_calls rpc self) as [_ ->].
    rewrite Hfail, Haudio. apply orb_true_r. }
  split; [exact Hplaying|].
  rewrite turn_calls_general, Hplaying. cbn [filter is_start_playback
    is_stop_recording is_write].
  rewrite !filter_app, length_app, filter_start_playback_loop_calls,
    filter_stop_recording_loop_calls, filter_write_loop_calls.
  destruct (error next); cbn; rewrite ?app_nil_r; repeat split; lia.
Qed.

(** X14 at the sample turn that fails after the answer began to play,
    followed by the turn that answers with audio. *)
Lemma failed_turn_leaves_stream_playing_witness :
  error Session.interrupted
    = Some (RpcError UNAVAILABLE "connection reset") /\
  existsb audio_bearing (responses Session.interrupted) = true /\
  turn_calls Sample.spoken
    (snd (assist_body Session.interrupted Sample.voice)) =
    [StartRecording; StopRecording; Write Sample.state1;
     Write Sample.state2; StopPlayback] /\
  filter is_start_playback
    (turn_calls Sample.spoken
       (snd (assist_body Session.interrupted Sample.voice))) = [].
Proof.
  split; [reflexivity|]. split; [reflexivity|]. split; [reflexivity|].
  exact (proj1 (proj2
           (@failed_turn_leaves_stream_playing Session.interrupted
              Sample.spoken Sample.voice
              (RpcError UNAVAILABLE "connection reset") eq_refl eq_refl))).
Defined.

End PlaybackOrder.

(** ** The stored conversation state is never empty *)

Section NonEmptyState.

Import Py Grpc Proto AudioHelpers Tenacity Inbound EmbeddedAssistantStub.
Local Open Scope Z_scope.






End NonEmptyState.
